(** * VisionTransformer: one Transformer encoder block of flashlight

    A shallow embedding of [flashlight/fl/contrib/modules/VisionTransformer.cpp]
    and the properties its specification states about it.

    Conventions of the embedding.
    - A float is an element of a scalar type [F] that comes with the operations
      the C++ uses ([Arith], [Elementary]).  Every function of the source is
      written once, over any such [F].  Two scalar types are supplied: the real
      numbers (float arithmetic without rounding, where a property is about
      exact values) and the kernel's binary floats (where a property is about
      the IEEE special values).
    - An [af::array] is its [dim4] with its elements in column-major order,
      the layout ArrayFire documents for host data.
    - The automatic differentiation kept by [fl::Variable] is not part of the
      embedding: a [Variable] is its array, and [noGrad] is the identity.
    - The random generator of the tensor runtime is an explicit state that
      [randu] reads and advances.
    - A [throw] is the left injection of a sum; errors that the tensor runtime
      itself raises on ill-shaped operands are not part of the embedding, whose
      array operations are total.
    - The tensor runtime and the modules [Linear] and [LayerNorm] are not among
      the sources; their operations are written here from what the
      specification says of them, each marked as such.
    - [prettyString] only formats three fields and is left out. *)

From Stdlib Require Import ZArith List Lia QArith Reals Lra Floats.
From Stdlib.Strings Require Import Byte.
From stdpp Require Import base option list list_numbers strings gmap.

Set Default Proof Using "Type".
Local Open Scope Z_scope.

(** ** Scalars *)

(** The arithmetic of the element type ([f32] in the source). *)
Class Arith (F : Type) := {
  flit : Q -> F;            (* a numeric literal of the source *)
  of_int : Z -> F;          (* conversion of an integer to a float *)
  of_bits : Z -> F;         (* the float whose 32-bit pattern is given *)
  fadd : F -> F -> F;
  fsub : F -> F -> F;
  fmul : F -> F -> F;
  fdiv : F -> F -> F;
  fgtb : F -> F -> bool;    (* [a > b] *)
}.

(** The functions of [<cmath>] and of the tensor runtime on one element. *)
Class Elementary (F : Type) `{Arith F} := {
  fsqrt : F -> F;
  fexp : F -> F;
  ftanh : F -> F;
  facos : F -> F;
  fpow : F -> Q -> F;       (* [pow] with a literal exponent *)
}.

Definition f0 {F} `{Arith F} : F := flit 0.
Definition f1 {F} `{Arith F} : F := flit 1.

(** ** Machine integers *)

(** Conversion to [int32_t] (two's complement). *)
Definition wrap32 (z : Z) : Z := (z + 2 ^ 31) mod 2 ^ 32 - 2 ^ 31.

(** Product of two [int32_t]. *)
Definition mul32 (a b : Z) : Z := wrap32 (a * b).

(** ** ArrayFire arrays *)

Record dim4 := Dim4 { d0 : Z; d1 : Z; d2 : Z; d3 : Z }.

Definition elements (d : dim4) : Z := d0 d * d1 d * d2 d * d3 d.

Record array (F : Type) := Array { dims : dim4; host : list F }.
Arguments Array {F} _ _.
Arguments dims {F} _.
Arguments host {F} _.

Section Runtime.
Context {F : Type} `{Arith F}.

(** Position of element (i, j, k, l) in the column-major data. *)
Definition offset (d : dim4) (i j k l : Z) : Z :=
  i + d0 d * (j + d1 d * (k + d2 d * l)).

Definition inb (d : dim4) (i j k l : Z) : bool :=
  (0 <=? i) && (i <? d0 d) && (0 <=? j) && (j <? d1 d) &&
  (0 <=? k) && (k <? d2 d) && (0 <=? l) && (l <? d3 d).

(** The element at (i, j, k, l); zero outside the array. *)
Definition at4 (a : array F) (i j k l : Z) : F :=
  if inb (dims a) i j k l
  then default f0 (host a !! Z.to_nat (offset (dims a) i j k l))
  else f0.

(** The coordinates of the [n]th element. *)
Definition coords (d : dim4) (n : Z) : Z * Z * Z * Z :=
  (n mod d0 d, (n / d0 d) mod d1 d, (n / (d0 d * d1 d)) mod d2 d,
   n / (d0 d * d1 d * d2 d)).

(** The array of dimensions [d] whose element (i, j, k, l) is [f i j k l]. *)
Definition tabulate (d : dim4) (f : Z -> Z -> Z -> Z -> F) : array F :=
  Array d (map (fun n => let '(i, j, k, l) := coords d n in f i j k l)
               (seqZ 0 (elements d))).

(** [af::array(d0, ptr)] and [af::array(d0, d1, ptr)]: the first elements of
    the host buffer, taken in column-major order. *)
Definition array1 (n : Z) (ptr : list F) : array F :=
  Array (Dim4 n 1 1 1) (take (Z.to_nat n) ptr).
Definition array2 (n m : Z) (ptr : list F) : array F :=
  Array (Dim4 n m 1 1) (take (Z.to_nat (n * m)) ptr).

(** Modelled from the spec: [fl::constant(v, d0, d1)] of the tensor runtime,
    absent from the sources under verification: an array filled with [v]. *)
Definition constant (v : F) (n m : Z) : array F :=
  Array (Dim4 n m 1 1) (replicate (Z.to_nat (n * m)) v).

(** [a(af::seq(lo, hi), af::span)]: rows [lo..hi] of every column. *)
Definition rows (a : array F) (lo hi : Z) : array F :=
  tabulate (Dim4 (hi - lo + 1) (d1 (dims a)) (d2 (dims a)) (d3 (dims a)))
           (fun i j k l => at4 a (lo + i) j k l).

(** Modelled from the spec: the elementwise operations of the tensor runtime,
    absent from the sources under verification.  [amap] applies a function to
    every element (an operation with a scalar operand); [azip] combines two
    arrays element by element and has the shape of its left operand. *)
Definition amap (f : F -> F) (a : array F) : array F :=
  Array (dims a) (map f (host a)).
Definition azip (f : F -> F -> F) (a b : array F) : array F :=
  Array (dims a) (zip_with f (host a) (host b)).

(** Sum of [f 0 .. f (n-1)], accumulated from zero in index order. *)
Definition fsum (n : Z) (f : Z -> F) : F :=
  fold_left (fun acc c => fadd acc (f c)) (seqZ 0 n) f0.

(** Modelled from the spec: [fl::transpose] of the tensor runtime, absent from
    the sources under verification: it exchanges the first two axes of every
    slice. *)
Definition transpose (a : array F) : array F :=
  tabulate (Dim4 (d1 (dims a)) (d0 (dims a)) (d2 (dims a)) (d3 (dims a)))
           (fun i j k l => at4 a j i k l).

(** [af::tile(a, dim4(n, m))]: [n] copies along axis 0, [m] along axis 1. *)
Definition tile (a : array F) (n m : Z) : array F :=
  tabulate (Dim4 (d0 (dims a) * n) (d1 (dims a) * m) (d2 (dims a)) (d3 (dims a)))
           (fun i j k l => at4 a (i mod d0 (dims a)) (j mod d1 (dims a)) k l).

(** [af::mean(a, 2)]: the mean along axis 2. *)
Definition mean2 (a : array F) : array F :=
  tabulate (Dim4 (d0 (dims a)) (d1 (dims a)) 1 (d3 (dims a)))
           (fun i j _ l =>
              fdiv (fsum (d2 (dims a)) (fun k => at4 a i j k l))
                   (of_int (d2 (dims a)))).

(** [a.scalar<float>()]: the first element. *)
Definition scalar (a : array F) : F := default f0 (host a !! 0%nat).

(** Modelled from the spec: the batched matrix products of the tensor runtime,
    absent from the sources under verification.  [matmul a b] is a·b and
    [matmulNT a b] is a·bᵀ, slice by slice along axes 2 and 3. *)
Definition matmul (a b : array F) : array F :=
  tabulate (Dim4 (d0 (dims a)) (d1 (dims b)) (d2 (dims a)) (d3 (dims a)))
           (fun i j k l =>
              fsum (d1 (dims a)) (fun c => fmul (at4 a i c k l) (at4 b c j k l))).
Definition matmulNT (a b : array F) : array F :=
  tabulate (Dim4 (d0 (dims a)) (d0 (dims b)) (d2 (dims a)) (d3 (dims a)))
           (fun i j k l =>
              fsum (d1 (dims a)) (fun c => fmul (at4 a i c k l) (at4 b j c k l))).

(** Modelled from the spec: [fl::moddims] (reshape) of the tensor runtime,
    absent from the sources under verification: same data, new dimensions; a
    requested dimension of [-1] is the one that makes the element count fit. *)
Definition inferDim (n : Z) (d others : Z) : Z :=
  if d =? -1 then Z.quot n others else d.
Definition moddims (a : array F) (d : dim4) : array F :=
  let n := elements (dims a) in
  Array (Dim4 (inferDim n (d0 d) (d1 d * d2 d * d3 d))
              (inferDim n (d1 d) (d0 d * d2 d * d3 d))
              (inferDim n (d2 d) (d0 d * d1 d * d3 d))
              (inferDim n (d3 d) (d0 d * d1 d * d2 d)))
        (host a).

(** Modelled from the spec: [fl::softmax] of the tensor runtime, absent from
    the sources under verification.  [softmax a 1] normalises the exponentials
    of the elements along axis 1. *)
Definition softmax1 `{!Elementary F} (a : array F) : array F :=
  tabulate (dims a)
           (fun i j k l =>
              fdiv (fexp (at4 a i j k l))
                   (fsum (d1 (dims a)) (fun c => fexp (at4 a i c k l)))).

(** *** The random generator *)

(** The state of the generator: the uniform draws still to come, as a tape and
    the position of the next draw. *)
Record Rng := MkRng { tape : Z -> F; cursor : Z }.

(** [af::randu(dims)]: as many draws as [d] has elements. *)
Definition randu (d : dim4) (g : Rng) : array F * Rng :=
  (Array d (map (fun n => tape g (cursor g + n)) (seqZ 0 (elements d))),
   MkRng (tape g) (cursor g + Z.max 0 (elements d))).

(** [(a > p).as(f32)]: one where the element exceeds [p], zero elsewhere. *)
Definition gtMask (a : array F) (p : F) : array F :=
  amap (fun e => if fgtb e p then f1 else f0) a.

(** Modelled from the spec: [fl::dropout], the dropout primitive of the tensor
    runtime, absent from the sources under verification.  At probability 0 it
    is a no-op; at a positive probability it keeps the elements whose draw
    exceeds [p] and rescales them by 1/(1-p). *)
Definition dropout (input : array F) (p : F) (g : Rng) : array F * Rng :=
  if fgtb p f0 then
    let '(u, g') := randu (dims input) g in
    (azip fmul (amap (fmul (fdiv f1 (fsub f1 p))) (gtMask u p)) input, g')
  else (input, g).

(** Modelled from the spec: [fl::truncNormal], the truncated-normal
    initialisation of the tensor runtime, absent from the sources under
    verification.  It fills an array of the requested dimensions; how a uniform
    draw becomes a truncated-normal value is left to [truncNormalOf]. *)
Definition truncNormal (truncNormalOf : F -> F -> F) (d : dim4) (stdv : F)
    (g : Rng) : array F * Rng :=
  let '(u, g') := randu d g in (amap (truncNormalOf stdv) u, g').

(** Modelled from the spec: [fl::noGrad] of the tensor runtime, absent from the
    sources under verification: a variable that takes no part in
    differentiation. *)
Definition noGrad (a : array F) : array F := a.

(** ** The sub-modules *)

(** Modelled from the spec: [fl::Linear], absent from the sources under
    verification, holds a weight of shape (out x in) and a bias. *)
Record Linear := MkLinear { weight : array F; bias : array F }.

(** Modelled from the spec: the forward operation of [fl::Linear], absent from
    the sources under verification: output = weight·input + bias, for every
    position of axes 1 to 3. *)
Definition Linear_forward (m : Linear) (input : array F) : array F :=
  tabulate (Dim4 (d0 (dims (weight m))) (d1 (dims input)) (d2 (dims input))
                 (d3 (dims input)))
           (fun i j k l =>
              fadd (fsum (d1 (dims (weight m)))
                         (fun c => fmul (at4 (weight m) i c 0 0) (at4 input c j k l)))
                   (at4 (bias m) i 0 0 0)).

(** Modelled from the spec: [fl::LayerNorm], absent from the sources under
    verification, holds the arguments of its constructor and a scale and a
    shift vector. *)
Record LayerNorm := MkLayerNorm {
  axes : list Z;
  epsilon : F;
  affine : bool;
  axisSize : Z;
  ln_weight : array F;
  ln_bias : array F;
}.

(** Modelled from the spec: the constructor of [fl::LayerNorm], absent from the
    sources under verification: scale one and shift zero, of length
    [axisSize]. *)
Definition LayerNorm_new (axes : list Z) (eps : F) (affine : bool)
    (axisSize : Z) : LayerNorm :=
  MkLayerNorm axes eps affine axisSize
              (constant f1 axisSize 1) (constant f0 axisSize 1).

(** Modelled from the spec: [setParams(var, position)] of the module base
    class, absent from the sources under verification; it overrides the scale
    (position 0) or the shift (position 1). *)
Definition setParams (m : LayerNorm) (var : array F) (position : Z) : LayerNorm :=
  if position =? 0
  then MkLayerNorm (axes m) (epsilon m) (affine m) (axisSize m) var (ln_bias m)
  else MkLayerNorm (axes m) (epsilon m) (affine m) (axisSize m) (ln_weight m) var.

(** Modelled from the spec: the forward operation of [fl::LayerNorm], absent
    from the sources under verification, for the one axis set this block uses
    (the feature axis 0): subtract the mean, divide by the square root of the
    variance plus epsilon, then scale and shift. *)
Definition LayerNorm_forward `{!Elementary F} (m : LayerNorm) (input : array F)
    : array F :=
  let n := d0 (dims input) in
  let mu j k l := fdiv (fsum n (fun c => at4 input c j k l)) (of_int n) in
  let var j k l :=
    fdiv (fsum n (fun c => fmul (fsub (at4 input c j k l) (mu j k l))
                                (fsub (at4 input c j k l) (mu j k l))))
         (of_int n) in
  tabulate (dims input)
           (fun i j k l =>
              let y := fdiv (fsub (at4 input i j k l) (mu j k l))
                            (fsqrt (fadd (var j k l) (epsilon m))) in
              if affine m
              then fadd (fmul y (at4 (ln_weight m) i 0 0 0)) (at4 (ln_bias m) i 0 0 0)
              else y).

(** A registered child of the block. *)
Inductive Module :=
| ModLinear (m : Linear)
| ModLayerNorm (m : LayerNorm).
End Runtime.

Arguments Rng : clear implicits.
Arguments MkRng {F} _ _.
Arguments tape {F} _ _.
Arguments cursor {F} _.
Arguments Linear : clear implicits.
Arguments MkLinear {F} _ _.
Arguments weight {F} _.
Arguments bias {F} _.
Arguments LayerNorm : clear implicits.
Arguments MkLayerNorm {F} _ _ _ _ _ _.
Arguments axes {F} _.
Arguments epsilon {F} _.
Arguments affine {F} _.
Arguments axisSize {F} _.
Arguments ln_weight {F} _.
Arguments ln_bias {F} _.
Arguments Module : clear implicits.
Arguments ModLinear {F} _.
Arguments ModLayerNorm {F} _.

(** ** The block *)

Record VisionTransformer (F : Type) := MkVisionTransformer {
  train_ : bool;                 (* of the base class [Module] *)
  modules_ : list (Module F);    (* of the base class [Container] *)
  modelDim_ : Z;
  headDim_ : Z;
  mlpDim_ : Z;
  nHeads_ : Z;
  pDropout_ : F;
  pLayerdrop_ : F;
  w1_ : Linear F;
  w2_ : Linear F;
  wq_ : Linear F;
  wk_ : Linear F;
  wv_ : Linear F;
  wf_ : Linear F;
  norm1_ : LayerNorm F;
  norm2_ : LayerNorm F;
}.
Arguments MkVisionTransformer {F} _ _ _ _ _ _ _ _ _ _ _ _ _ _ _ _.
Arguments train_ {F} _.
Arguments modules_ {F} _.
Arguments modelDim_ {F} _.
Arguments headDim_ {F} _.
Arguments mlpDim_ {F} _.
Arguments nHeads_ {F} _.
Arguments pDropout_ {F} _.
Arguments pLayerdrop_ {F} _.
Arguments w1_ {F} _.
Arguments w2_ {F} _.
Arguments wq_ {F} _.
Arguments wk_ {F} _.
Arguments wv_ {F} _.
Arguments wf_ {F} _.
Arguments norm1_ {F} _.
Arguments norm2_ {F} _.

(** Modelled from the spec: [add(module)] of the module base class, absent
    from the sources under verification: it registers a child. *)
Definition add {F} (b : VisionTransformer F) (m : Module F) : VisionTransformer F :=
  MkVisionTransformer (train_ b) (modules_ b ++ [m]) (modelDim_ b) (headDim_ b)
    (mlpDim_ b) (nHeads_ b) (pDropout_ b) (pLayerdrop_ b) (w1_ b) (w2_ b)
    (wq_ b) (wk_ b) (wv_ b) (wf_ b) (norm1_ b) (norm2_ b).

(** Modelled from the spec: [train()] and [eval()] of the module base class,
    absent from the sources under verification: they set the mode flag. *)
Definition setTrain {F} (mode : bool) (b : VisionTransformer F)
    : VisionTransformer F :=
  MkVisionTransformer mode (modules_ b) (modelDim_ b) (headDim_ b)
    (mlpDim_ b) (nHeads_ b) (pDropout_ b) (pLayerdrop_ b) (w1_ b) (w2_ b)
    (wq_ b) (wk_ b) (wv_ b) (wf_ b) (norm1_ b) (norm2_ b).

(** The calls [add(w1_); ...; add(norm2_)] that end both constructors. *)
Definition addAll {F} (b : VisionTransformer F) : VisionTransformer F :=
  let b := add b (ModLinear (w1_ b)) in
  let b := add b (ModLinear (w2_ b)) in
  let b := add b (ModLinear (wq_ b)) in
  let b := add b (ModLinear (wk_ b)) in
  let b := add b (ModLinear (wv_ b)) in
  let b := add b (ModLinear (wf_ b)) in
  let b := add b (ModLayerNorm (norm1_ b)) in
  let b := add b (ModLayerNorm (norm2_ b)) in
  b.

Section Forward.
Context {F : Type} `{Elementary F}.

Definition pi : F := facos (flit (-1)).
Definition geluConst1 : F := fsqrt (fdiv (flit 2) pi).
Definition geluConst2 : F := flit (44715 # 1000000).

Definition gelu (input : array F) : array F :=
  let res :=
    azip fadd input (amap (fmul geluConst2) (amap (fun e => fpow e 3) input)) in
  let res := amap (fadd (flit 1)) (amap ftanh (amap (fmul geluConst1) res)) in
  let res := azip fmul (amap (fmul (flit (1 # 2))) input) res in
  res.

(** The formula the specification gives for one element:
    0.5 * x * (1 + tanh(sqrt(2/pi) * (x + 0.044715 * x^3))),
    with the constants of the source. *)
Definition gelu_formula (x : F) : F :=
  fmul (fmul (flit (1 # 2)) x)
       (fadd (flit 1)
             (ftanh (fmul geluConst1 (fadd x (fmul geluConst2 (fpow x 3)))))).

Definition mlp (self : VisionTransformer F) (input : array F) (g : Rng F)
    : array F * Rng F :=
  let pDropout := if train_ self then pDropout_ self else flit 0 in
  let output := Linear_forward (w1_ self) input in
  let output := gelu output in
  let '(output, g) := dropout output pDropout g in
  let output := Linear_forward (w2_ self) output in
  let '(output, g) := dropout output pDropout g in
  (output, g).

(** Lines 121 to 142 of [selfAttention]: the projections, reshaped to one slice
    per head and batch element, the query scaled. *)
Definition selfAttention_qkv (self : VisionTransformer F) (x : array F)
    : array F * array F * array F :=
  let B := d2 (dims x) in
  let q := transpose (Linear_forward (wq_ self) x) in
  let k := transpose (Linear_forward (wk_ self) x) in
  let v := transpose (Linear_forward (wv_ self) x) in
  let q := moddims q (Dim4 (-1) (headDim_ self) (nHeads_ self * B) 1) in
  let k := moddims k (Dim4 (-1) (headDim_ self) (nHeads_ self * B) 1) in
  let v := moddims v (Dim4 (-1) (headDim_ self) (nHeads_ self * B) 1) in
  let q := amap (fun e => fdiv e (fsqrt (of_int (headDim_ self)))) q in
  (q, k, v).

(** Lines 144 and 145: the scores and the attention weights. *)
Definition selfAttention_scores (self : VisionTransformer F) (x : array F)
    : array F :=
  let '(q, k, _) := selfAttention_qkv self x in matmulNT q k.

Definition selfAttention_attn (self : VisionTransformer F) (x : array F)
    : array F :=
  softmax1 (selfAttention_scores self x).

Definition selfAttention (self : VisionTransformer F) (x : array F) (g : Rng F)
    : array F * Rng F :=
  let B := d2 (dims x) in
  let pDrop := if train_ self then pDropout_ self else flit 0 in
  let '(_, _, v) := selfAttention_qkv self x in
  let attn := selfAttention_attn self x in
  let result := matmul attn v in
  let result :=
    moddims result (Dim4 (-1) (mul32 (headDim_ self) (nHeads_ self)) B 1) in
  let result := Linear_forward (wf_ self) (transpose result) in
  let '(result, g) := dropout result pDrop g in
  (result, g).

(** Lines 162 to 166 of [dropPath]: the keep mask and its realised ratio. *)
Definition dropPath_keepMask (self : VisionTransformer F) (x : array F)
    (g : Rng F) : array F * Rng F :=
  let B := wrap32 (d2 (dims x)) in
  let '(u, g) := randu (Dim4 1 1 B 1) g in
  (gtMask u (pLayerdrop_ self), g).

Definition dropPath_keepRatio (self : VisionTransformer F) (x : array F)
    (g : Rng F) : F :=
  scalar (mean2 (fst (dropPath_keepMask self x g))).

Definition dropPath (self : VisionTransformer F) (x : array F) (g : Rng F)
    : array F * Rng F :=
  if negb (train_ self) then (x, g)
  else
    let C := wrap32 (d0 (dims x)) in
    let T := wrap32 (d1 (dims x)) in
    let '(keepMask, g) := dropPath_keepMask self x g in
    let keepRatio := scalar (mean2 keepMask) in
    let keepMask := amap (fun e => fdiv e keepRatio) keepMask in
    (azip fmul x (tile keepMask C T), g).

(** [inputs.front()]; the guard of [forward] excludes the empty vector, on
    which it is undefined. *)
Definition front (inputs : list (array F)) : array F :=
  default (Array (Dim4 0 0 0 0) []) (head inputs).

Definition forward (self : VisionTransformer F) (inputs : list (array F))
    (g : Rng F) : (string + list (array F)) * Rng F :=
  if negb (Z.of_nat (length inputs) =? 1)
  then (inl "VisionTransformer forward, >1 inputs", g)
  else
    let x := front inputs in
    let '(a, g) := selfAttention self (LayerNorm_forward (norm1_ self) x) g in
    let '(a, g) := dropPath self a g in
    let output := azip fadd x a in
    let '(m, g) := mlp self (LayerNorm_forward (norm2_ self) output) g in
    let '(m, g) := dropPath self m g in
    let output := azip fadd output m in
    (inr [output], g).

Definition initLinear (truncNormalOf : F -> F -> F) (inDim outDim : Z)
    (g : Rng F) : array F * Rng F :=
  truncNormal truncNormalOf (Dim4 outDim inDim 1 1) (flit (2 # 100)) g.

(** The constructor from a configuration; the random weights are drawn in the
    order of the initialiser list.  A module starts in training mode. *)
Definition VisionTransformer_new (truncNormalOf : F -> F -> F)
    (modelDim headDim mlpDim nHeads : Z) (pDropout pLayerdrop : F) (g : Rng F)
    : VisionTransformer F * Rng F :=
  let '(w, g) := initLinear truncNormalOf modelDim mlpDim g in
  let w1 := MkLinear w (constant (flit 0) mlpDim 1) in
  let '(w, g) := initLinear truncNormalOf mlpDim modelDim g in
  let w2 := MkLinear w (constant (flit 0) modelDim 1) in
  let '(w, g) := initLinear truncNormalOf modelDim (mul32 headDim nHeads) g in
  let wq := MkLinear w (constant (flit 0) (mul32 headDim nHeads) 1) in
  let '(w, g) := initLinear truncNormalOf modelDim (mul32 headDim nHeads) g in
  let wk := MkLinear w (constant (flit 0) (mul32 headDim nHeads) 1) in
  let '(w, g) := initLinear truncNormalOf modelDim (mul32 headDim nHeads) g in
  let wv := MkLinear w (constant (flit 0) (mul32 headDim nHeads) 1) in
  let '(w, g) := initLinear truncNormalOf (mul32 headDim nHeads) modelDim g in
  let wf := MkLinear w (constant (flit 0) (mul32 headDim nHeads) 1) in
  let norm1 := LayerNorm_new [0] (flit (1 # 1000000)) true modelDim in
  let norm2 := LayerNorm_new [0] (flit (1 # 1000000)) true modelDim in
  (addAll (MkVisionTransformer true [] modelDim headDim mlpDim nHeads
             pDropout pLayerdrop w1 w2 wq wk wv wf norm1 norm2), g).

(** *** Loading a checkpoint *)

(** What a constructor does besides building the object: it writes to
    [std::cout] and it may throw. *)
Definition Ctor (A : Type) : Type := list string -> (string + A) * list string.

Definition ret {A} (a : A) : Ctor A := fun out => (inr a, out).
Definition throw {A} (what : string) : Ctor A := fun out => (inl what, out).
Definition cout (s : string) : Ctor unit := fun out => (inr tt, out ++ [s]).
Definition bind {A B} (m : Ctor A) (k : A -> Ctor B) : Ctor B :=
  fun out =>
    match m out with
    | (inl what, out) => (inl what, out)
    | (inr a, out) => k a out
    end.

(** The value of four bytes read as a little-endian word. *)
Definition le32 (bs : list byte) : Z :=
  foldr (fun b acc => Z.of_N (Byte.to_N b) + 256 * acc) 0 bs.

Definition newline : string := String (Ascii.ascii_of_nat 10) "".

(** [w.size()]. *)
Definition size {A} (w : list A) : Z := Z.of_nat (length w).

(** The file system maps a path to the bytes of the file; a path it does not
    map cannot be opened. *)
Definition readfloats (fs : gmap string (list byte)) (filepath : string)
    : Ctor (list F) :=
  match fs !! filepath with
  | None => bind (cout (" Error, Couldn't find the file" +:+ newline))
                 (fun _ => ret [])
  | Some fin =>
      let num_elements := (length fin / 4)%nat in
      ret (map (fun i => of_bits (le32 (take 4 (drop (4 * i) fin))))
               (seq 0 num_elements))
  end.

(** [if (w.size() != n) throw std::runtime_error(what)]. *)
Definition expectSize {A} (w : list A) (n : Z) (what : string) : Ctor unit :=
  if negb (size w =? n) then throw what else ret tt.

Notation "x <- m ;; k" := (bind m (fun x => k))
  (at level 100, m at next level, right associativity, only parsing).

(** The constructor from a checkpoint. *)
Definition VisionTransformer_load (fs : gmap string (list byte))
    (prefix : string) : Ctor (VisionTransformer F) :=
  let modelDim := 768 in
  let headDim := 768 / 12 in
  let mlpDim := 768 * 4 in
  let nHeads := 12 in
  let pDropout := flit 0 in
  let pLayerdrop := flit 0 in
  w <- readfloats fs (prefix +:+ ".mlp.fc1.weight.bin") ;;
  _ <- expectSize w (768 * 3072) ".mlp.fc1.weight.bin" ;;
  b <- readfloats fs (prefix +:+ ".mlp.fc1.bias.bin") ;;
  _ <- expectSize b 3072 ".mlp.fc1.bias.bin" ;;
  let arr_w := noGrad (array2 3072 768 w) in
  let arr_b := noGrad (array1 3072 b) in
  let w1 := MkLinear arr_w arr_b in

  w <- readfloats fs (prefix +:+ ".mlp.fc2.weight.bin") ;;
  _ <- expectSize w (768 * 3072) ".mlp.fc2.weight.bin" ;;
  b <- readfloats fs (prefix +:+ ".mlp.fc2.bias.bin") ;;
  _ <- expectSize b 768 ".mlp.fc2.bias.bin" ;;
  let arr_w := noGrad (array2 768 3072 w) in
  let arr_b := noGrad (array1 768 b) in
  let w2 := MkLinear arr_w arr_b in

  w <- readfloats fs (prefix +:+ ".attn.qkv.weight.bin") ;;
  _ <- expectSize w (768 * 2304) ".attn.qkv.weight.bin" ;;
  b <- readfloats fs (prefix +:+ ".attn.qkv.bias.bin") ;;
  _ <- expectSize b 2304 ".attn.qkv.bias.bin" ;;
  let all_w := array2 2304 768 w in
  let all_b := array1 2304 b in

  let arr_w := noGrad (rows all_w 0 (768 - 1)) in
  let arr_b := noGrad (rows all_b 0 (768 - 1)) in
  let wq := MkLinear arr_w arr_b in

  let arr_w := noGrad (rows all_w 768 (2 * 768 - 1)) in
  let arr_b := noGrad (rows all_b 768 (2 * 768 - 1)) in
  let wk := MkLinear arr_w arr_b in

  let arr_w := noGrad (rows all_w (2 * 768) (3 * 768 - 1)) in
  let arr_b := noGrad (rows all_b (2 * 768) (3 * 768 - 1)) in
  let wv := MkLinear arr_w arr_b in

  w <- readfloats fs (prefix +:+ ".attn.proj.weight.bin") ;;
  _ <- expectSize w (768 * 768) ".attn.proj.weight.bin" ;;
  b <- readfloats fs (prefix +:+ ".attn.proj.bias.bin") ;;
  _ <- expectSize b 768 ".attn.proj.bias.bin" ;;
  let arr_w := noGrad (array2 768 768 w) in
  let arr_b := noGrad (array1 768 b) in
  let wf := MkLinear arr_w arr_b in

  w <- readfloats fs (prefix +:+ ".norm1.weight.bin") ;;
  _ <- expectSize w 768 ".norm1.weight.bin" ;;
  b <- readfloats fs (prefix +:+ ".norm1.bias.bin") ;;
  _ <- expectSize b 768 ".norm1.bias.bin" ;;
  let arr_w := noGrad (array1 768 w) in
  let arr_b := noGrad (array1 768 b) in
  let norm1 := LayerNorm_new [0] (flit (1 # 1000000)) true modelDim in
  let norm1 := setParams norm1 arr_w 0 in
  let norm1 := setParams norm1 arr_b 1 in

  w <- readfloats fs (prefix +:+ ".norm2.weight.bin") ;;
  _ <- expectSize w 768 ".norm2.weight.bin" ;;
  b <- readfloats fs (prefix +:+ ".norm2.bias.bin") ;;
  _ <- expectSize b 768 ".norm2.bias.bin" ;;
  let arr_w := noGrad (array1 768 w) in
  let arr_b := noGrad (array1 768 b) in
  let norm2 := LayerNorm_new [0] (flit (1 # 1000000)) true modelDim in
  let norm2 := setParams norm2 arr_w 0 in
  let norm2 := setParams norm2 arr_b 1 in

  ret (addAll (MkVisionTransformer true [] modelDim headDim mlpDim nHeads
                 pDropout pLayerdrop w1 w2 wq wk wv wf norm1 norm2)).

(** The files a checkpoint consists of, in the order the constructor reads
    them, each with the element count it must have. *)
Definition checkpointFiles : list (string * Z) :=
  [ (".mlp.fc1.weight.bin", 768 * 3072); (".mlp.fc1.bias.bin", 3072);
    (".mlp.fc2.weight.bin", 768 * 3072); (".mlp.fc2.bias.bin", 768);
    (".attn.qkv.weight.bin", 768 * 2304); (".attn.qkv.bias.bin", 2304);
    (".attn.proj.weight.bin", 768 * 768); (".attn.proj.bias.bin", 768);
    (".norm1.weight.bin", 768); (".norm1.bias.bin", 768);
    (".norm2.weight.bin", 768); (".norm2.bias.bin", 768) ].

(** The floats [readfloats] returns for a path: the element count of the
    file. *)
Definition floatsOf (fs : gmap string (list byte)) (filepath : string)
    : list F :=
  match fst (readfloats fs filepath []) with
  | inr w => w
  | inl _ => []
  end.

(** What [readfloats] writes to [std::cout] for a path. *)
Definition coutOf (fs : gmap string (list byte)) (filepath : string)
    : list string :=
  snd (readfloats fs filepath []).

(** Whether the file of a checkpoint entry has the element count expected. *)
Definition sizeOk (fs : gmap string (list byte)) (prefix : string)
    (e : string * Z) : bool :=
  size (floatsOf fs (prefix +:+ fst e)) =? snd e.

(** The first file, in reading order, whose element count is not the one
    expected. *)
Definition firstBad (fs : gmap string (list byte)) (prefix : string)
    : option (string * Z) :=
  find (fun e => negb (sizeOk fs prefix e)) checkpointFiles.
End Forward.

(** ** The two scalar types *)

(** *** Real numbers: float arithmetic without rounding *)

Definition R_gtb (a b : R) : bool := if Rlt_dec b a then true else false.

(** The value of a binary32 pattern; the patterns of infinities and NaN, which
    have no real value, are read as 0. *)
Definition R_of_bits (w : Z) : R :=
  let e := (w / 2 ^ 23) mod 256 in
  let m := w mod 2 ^ 23 in
  let mag :=
    if e =? 255 then 0%R
    else if e =? 0 then (IZR m * powerRZ 2 (-149))%R
    else (IZR (2 ^ 23 + m) * powerRZ 2 (e - 150))%R in
  if Z.testbit w 31 then (- mag)%R else mag.

(** [pow]: repeated multiplication for a natural exponent, as for any value of
    the base; the real power otherwise. *)
Definition R_pow (x : R) (q : Q) : R :=
  if (Qden q =? 1)%positive && (0 <=? Qnum q)
  then (x ^ Z.to_nat (Qnum q))%R
  else Rpower x (Q2R q).

#[export] Instance R_Arith : Arith R := {|
  flit := Q2R;
  of_int := IZR;
  of_bits := R_of_bits;
  fadd := Rplus;
  fsub := Rminus;
  fmul := Rmult;
  fdiv := Rdiv;
  fgtb := R_gtb;
|}.

#[export] Instance R_Elementary : Elementary R := {|
  fsqrt := R_sqrt.sqrt;
  fexp := Rtrigo_def.exp;
  ftanh := Rtrigo_def.tanh;
  facos := Ratan.acos;
  fpow := R_pow;
|}.

(** *** Binary floats: the IEEE 754 arithmetic of the kernel

    The kernel has binary64 where the source has binary32.  The two formats
    differ in precision and range, not in how zero, the infinities and NaN
    behave. *)

(** Conversion of an integer (below 2^63 in magnitude). *)
Definition float_of_int (z : Z) : float :=
  if z <? 0 then PrimFloat.opp (PrimFloat.of_uint63 (Uint63.of_Z (- z)))
  else PrimFloat.of_uint63 (Uint63.of_Z z).

Definition float_lit (q : Q) : float :=
  PrimFloat.div (float_of_int (Qnum q)) (float_of_int (Zpos (Qden q))).

Definition float_of_bits (w : Z) : float :=
  let e := (w / 2 ^ 23) mod 256 in
  let m := w mod 2 ^ 23 in
  let mag :=
    if e =? 255 then (if m =? 0 then PrimFloat.infinity else PrimFloat.nan)
    else if e =? 0 then FloatOps.Z.ldexp (float_of_int m) (-149)
    else FloatOps.Z.ldexp (float_of_int (2 ^ 23 + m)) (e - 150) in
  if Z.testbit w 31 then PrimFloat.opp mag else mag.

#[export] Instance float_Arith : Arith float := {|
  flit := float_lit;
  of_int := float_of_int;
  of_bits := float_of_bits;
  fadd := PrimFloat.add;
  fsub := PrimFloat.sub;
  fmul := PrimFloat.mul;
  fdiv := PrimFloat.div;
  fgtb := fun a b => PrimFloat.ltb b a;
|}.


(** An array is well formed when it has as many elements as its dimensions
    say. *)
Definition wellFormed {F} (a : array F) : Prop :=
  length (host a) = Z.to_nat (elements (dims a)).

(** The children a block registers, in the order of the calls to [add]. *)
Definition children {F} (b : VisionTransformer F) : list (Module F) :=
  [ ModLinear (w1_ b); ModLinear (w2_ b); ModLinear (wq_ b);
    ModLinear (wk_ b); ModLinear (wv_ b); ModLinear (wf_ b);
    ModLayerNorm (norm1_ b); ModLayerNorm (norm2_ b) ].

(** The tensors a block owns. *)
Definition parameters {F} (b : VisionTransformer F) : list (array F) :=
  [ weight (w1_ b); bias (w1_ b); weight (w2_ b); bias (w2_ b);
    weight (wq_ b); bias (wq_ b); weight (wk_ b); bias (wk_ b);
    weight (wv_ b); bias (wv_ b); weight (wf_ b); bias (wf_ b);
    ln_weight (norm1_ b); ln_bias (norm1_ b);
    ln_weight (norm2_ b); ln_bias (norm2_ b) ].

(** ** Sample data *)

(** A file of [n] zero bytes. *)
Definition blob (n : Z) : list byte := replicate (Z.to_nat n) x00.

(** A file system holding a well-sized checkpoint under the prefix [ckpt]:
    every file has four zero bytes for each float expected of it. *)
Definition fs0 : gmap string (list byte) :=
  list_to_map
    ((fun e : string * Z => ("ckpt" +:+ fst e, blob (4 * snd e)))
       <$> checkpointFiles).

(** A file system in which the first file of the checkpoint [ckpt] has 100
    floats and no other file exists. *)
Definition fs1 : gmap string (list byte) :=
  {[ "ckpt.mlp.fc1.weight.bin" := blob 400 ]}.

(** The fused query-key-value weight file in which float number 768 is 1.0
    (bytes 00 00 80 3f) and every other float is zero, and the well-sized
    checkpoint that holds it. *)
Definition markedQkv : list byte :=
  blob (4 * 768) ++ [x00; x00; x80; x3f] ++ blob (4 * (768 * 2304 - 769)).

Definition fs2 : gmap string (list byte) :=
  <[ "ckpt.attn.qkv.weight.bin" := markedQkv ]> fs0.

(** A weight file as the specification reads it, to compare with what the
    constructor builds: a matrix of [cols] columns flattened row by row, whose
    element (r, c) is float number [r * cols + c] of the file. *)
Definition specRowMajor {F} `{Arith F} (cols : Z) (w : list F) (r c : Z) : F :=
  default f0 (w !! Z.to_nat (r * cols + c)).

(** A block over the reals with one feature, one head of dimension one and an
    MLP of width one; every weight is one and every bias zero, and both
    probabilities are 1/10. *)
Definition unitLinear : Linear R :=
  MkLinear (Array (Dim4 1 1 1 1) [1%R]) (Array (Dim4 1 1 1 1) [0%R]).

Definition unitBlock (train : bool) : VisionTransformer R :=
  addAll (MkVisionTransformer train [] 1 1 1 1 (flit (1 # 10)) (flit (1 # 10))
            unitLinear unitLinear unitLinear unitLinear unitLinear unitLinear
            (LayerNorm_new [0] (flit (1 # 1000000)) true 1)
            (LayerNorm_new [0] (flit (1 # 1000000)) true 1)).

(** An input of one feature, two positions and one batch element. *)
Definition unitInput : array R := Array (Dim4 1 2 1 1) [1%R; 2%R].

(** A block over the binary floats in training mode, with drop-path
    probability 1/10, and an input of two features, one position and three
    batch elements. *)
Definition emptyLinear : Linear float :=
  MkLinear (Array (Dim4 0 0 0 0) []) (Array (Dim4 0 0 0 0) []).

Definition dropBlock : VisionTransformer float :=
  addAll (MkVisionTransformer true [] 2 1 1 1 (flit 0) (flit (1 # 10))
            emptyLinear emptyLinear emptyLinear emptyLinear emptyLinear
            emptyLinear
            (LayerNorm_new [0] (flit (1 # 1000000)) true 2)
            (LayerNorm_new [0] (flit (1 # 1000000)) true 2)).

Definition dropInput : array float :=
  Array (Dim4 2 1 3 1) (map float_of_int [1; 2; 3; 4; 5; 6]).

(** An input of 768 features, one position and one batch element, all
    zero. *)
Definition zeroInput768 : array R := Array (Dim4 768 1 1 1) (replicate 768 0%R).

(** The generator all of whose draws are zero. *)
Definition zeroDraws : Rng float := MkRng (fun _ => f0) 0.

(** * Properties *)

(** ** Indexing *)

Section ArrayFacts.
Context {F : Type} `{Arith F}.

Lemma inb_true d i j k l :
  inb d i j k l = true <->
  0 <= i < d0 d /\ 0 <= j < d1 d /\ 0 <= k < d2 d /\ 0 <= l < d3 d.
Proof. unfold inb. rewrite !andb_true_iff, !Z.leb_le, !Z.ltb_lt. lia. Qed.

Lemma divmod_step d i q :
  0 <= i < d -> (i + d * q) mod d = i /\ (i + d * q) / d = q.
Proof.
  intros Hi. rewrite (Z.mul_comm d q). split.
  - rewrite Z_mod_plus_full. apply Z.mod_small. lia.
  - rewrite Z_div_plus_full by lia. rewrite Z.div_small by lia. lia.
Qed.

Lemma offset_range d i j k l :
  inb d i j k l = true -> 0 <= offset d i j k l < elements d.
Proof.
  rewrite inb_true. unfold offset, elements. intros (Hi & Hj & Hk & Hl).
  assert (0 <= k + d2 d * l <= d2 d * d3 d - 1) by nia.
  assert (0 <= j + d1 d * (k + d2 d * l) <= d1 d * (d2 d * d3 d) - 1) by nia.
  nia.
Qed.

Lemma coords_offset d i j k l :
  inb d i j k l = true -> coords d (offset d i j k l) = (i, j, k, l).
Proof.
  rewrite inb_true. unfold offset, coords. intros (Hi & Hj & Hk & Hl).
  destruct (divmod_step (d0 d) i (j + d1 d * (k + d2 d * l)) Hi) as [m0 q0].
  destruct (divmod_step (d1 d) j (k + d2 d * l) Hj) as [m1 q1].
  destruct (divmod_step (d2 d) k l Hk) as [m2 q2].
  rewrite <- (Z.div_div _ (d0 d * d1 d) (d2 d)) by nia.
  rewrite <- !(Z.div_div _ (d0 d) (d1 d)) by lia.
  rewrite m0, q0, m1, q1, m2, q2. reflexivity.
Qed.

Lemma lookup_tabulate d (f : Z -> Z -> Z -> Z -> F) n :
  0 <= n < elements d ->
  host (tabulate d f) !! Z.to_nat n
  = Some (let '(i, j, k, l) := coords d n in f i j k l).
Proof.
  intros Hn. unfold tabulate. cbn [host].
  change (map ?g ?xs) with (g <$> xs).
  rewrite list_lookup_fmap, lookup_seqZ_lt by lia.
  cbn. rewrite Z2Nat.id by lia. reflexivity.
Qed.

Lemma at4_tabulate d (f : Z -> Z -> Z -> Z -> F) i j k l :
  inb d i j k l = true -> at4 (tabulate d f) i j k l = f i j k l.
Proof.
  intros Hin. unfold at4. cbn [dims tabulate]. rewrite Hin.
  rewrite lookup_tabulate by (apply offset_range; exact Hin).
  rewrite coords_offset by exact Hin. reflexivity.
Qed.

Lemma at4_rows a lo hi i j k l :
  inb (Dim4 (hi - lo + 1) (d1 (dims a)) (d2 (dims a)) (d3 (dims a))) i j k l = true ->
  at4 (rows a lo hi) i j k l = at4 a (lo + i) j k l.
Proof. intros Hin. unfold rows. rewrite at4_tabulate by exact Hin. reflexivity. Qed.

(** The element (i, j) of [af::array(n, m, ptr)] is element [i + n * j] of the
    host buffer. *)
Lemma at4_array2 n m (ptr : list F) i j :
  0 <= i < n -> 0 <= j < m ->
  at4 (array2 n m ptr) i j 0 0 = default f0 (ptr !! Z.to_nat (i + n * j)).
Proof.
  intros Hi Hj. unfold at4, array2. cbn [dims host].
  replace (inb _ i j 0 0) with true
    by (symmetry; apply inb_true; cbn; lia).
  unfold offset. cbn [d0 d1 d2 d3].
  replace (i + n * (j + m * (0 + 1 * 0))) with (i + n * j) by lia.
  rewrite lookup_take_lt by nia. reflexivity.
Qed.

Lemma at4_array1 n (ptr : list F) i :
  0 <= i < n ->
  at4 (array1 n ptr) i 0 0 0 = default f0 (ptr !! Z.to_nat i).
Proof.
  intros Hi. unfold at4, array1. cbn [dims host].
  replace (inb _ i 0 0 0) with true
    by (symmetry; apply inb_true; cbn; lia).
  unfold offset. cbn [d0 d1 d2 d3].
  replace (i + n * (0 + 1 * (0 + 1 * 0))) with i by lia.
  rewrite lookup_take_lt by lia. reflexivity.
Qed.
End ArrayFacts.

(** Rows 2 and 3 of a 6 x 2 array given column by column. *)
Example rows_of_columns :
  rows (array2 6 2 (map float_of_int [0; 1; 2; 3; 4; 5; 10; 11; 12; 13; 14; 15]))
       2 3
  = Array (Dim4 2 2 1 1) (map float_of_int [2; 3; 12; 13]).
Proof. vm_compute. reflexivity. Qed.

Example transpose_of_columns :
  transpose (array2 3 2 (map float_of_int [0; 1; 2; 3; 4; 5]))
  = Array (Dim4 2 3 1 1) (map float_of_int [0; 3; 1; 4; 2; 5]).
Proof. vm_compute. reflexivity. Qed.

(** ** Loading a checkpoint *)

(** Four bytes make a float, least significant byte first; bytes past the
    last whole float are not read. *)
Example readfloats_one_and_a_byte :
  floatsOf (F:=float) {[ "f" := [x00; x00; x80; x3f; xff] ]} "f" = [1%float].
Proof. vm_compute. reflexivity. Qed.

Example readfloats_missing :
  readfloats (F:=float) ∅ "f" []
  = (inr [], [" Error, Couldn't find the file" +:+ newline]).
Proof. vm_compute. reflexivity. Qed.

Section LoadFacts.
Context {F : Type} `{Arith F}.

Lemma readfloats_eq fs p out :
  readfloats (F:=F) fs p out = (inr (floatsOf fs p), out ++ coutOf fs p).
Proof.
  unfold floatsOf, coutOf, readfloats.
  destruct (fs !! p) as [fin|]; cbn.
  - rewrite app_nil_r. reflexivity.
  - reflexivity.
Qed.

Lemma bind_readfloats {B} fs p (k : list F -> Ctor B) out :
  bind (readfloats fs p) k out = k (floatsOf fs p) (out ++ coutOf fs p).
Proof. unfold bind. rewrite readfloats_eq. reflexivity. Qed.

Lemma bind_expectSize {A B} (w : list A) n what (k : unit -> Ctor B) out :
  bind (expectSize w n what) k out
  = if size w =? n then k tt out else (inl what, out).
Proof. unfold bind, expectSize. destruct (size w =? n); reflexivity. Qed.

(** The element count of what [readfloats] returns: a quarter of the bytes,
    rounded down; none for a file that cannot be opened. *)
Lemma size_floatsOf fs p :
  size (floatsOf (F:=F) fs p)
  = match fs !! p with
    | Some fin => Z.of_nat (length fin) / 4
    | None => 0
    end.
Proof.
  unfold floatsOf, readfloats, size.
  destruct (fs !! p) as [fin|]; cbn [fst ret bind cout].
  - rewrite length_map, length_seq. rewrite Nat2Z.inj_div. reflexivity.
  - reflexivity.
Qed.

(** Runs the constructor up to the next size check and splits on it; [tac]
    closes the case in which the check fails. *)
Ltac load_steps tac :=
  unfold VisionTransformer_load;
  repeat (rewrite bind_readfloats; cbv beta zeta;
          rewrite bind_expectSize; cbv beta zeta;
          destruct (size (floatsOf _ _) =? _);
          cbn [negb]; [ | tac ]).

Lemma load_firstBad fs prefix out e :
  firstBad (F:=F) fs prefix = Some e ->
  fst (VisionTransformer_load (F:=F) fs prefix out) = inl (fst e).
Proof.
  unfold firstBad, checkpointFiles, sizeOk. cbn [find fst snd].
  load_steps ltac:(intros [= <-]; reflexivity).
  discriminate.
Qed.

Lemma load_noBad fs prefix out :
  firstBad (F:=F) fs prefix = None ->
  exists blk, fst (VisionTransformer_load (F:=F) fs prefix out) = inr blk.
Proof.
  unfold firstBad, checkpointFiles, sizeOk. cbn [find fst snd].
  load_steps ltac:(discriminate).
  intros _. eexists. reflexivity.
Qed.

(** What a successful load has built. *)
Lemma load_inv fs prefix out blk out' :
  VisionTransformer_load (F:=F) fs prefix out = (inr blk, out') ->
  firstBad (F:=F) fs prefix = None /\
  train_ blk = true /\ pDropout_ blk = flit 0 /\ pLayerdrop_ blk = flit 0 /\
  let all_w := array2 2304 768 (floatsOf fs (prefix +:+ ".attn.qkv.weight.bin")) in
  let all_b := array1 2304 (floatsOf fs (prefix +:+ ".attn.qkv.bias.bin")) in
  wq_ blk = MkLinear (rows all_w 0 (768 - 1)) (rows all_b 0 (768 - 1)) /\
  wk_ blk = MkLinear (rows all_w 768 (2 * 768 - 1)) (rows all_b 768 (2 * 768 - 1)) /\
  wv_ blk = MkLinear (rows all_w (2 * 768) (3 * 768 - 1))
                     (rows all_b (2 * 768) (3 * 768 - 1)).
Proof.
  unfold firstBad, checkpointFiles, sizeOk. cbn [find fst snd].
  load_steps ltac:(discriminate).
  unfold ret. intros [= <- _]. unfold noGrad. repeat split.
Qed.
End LoadFacts.

Lemma fs0_lookup e :
  In e checkpointFiles -> fs0 !! ("ckpt" +:+ fst e) = Some (blob (4 * snd e)).
Proof.
  unfold checkpointFiles. cbn [In].
  intros Hin.
  repeat (destruct Hin as [<- | Hin]; [ reflexivity | ]).
  contradiction.
Qed.

Lemma length_blob n : 0 <= n -> Z.of_nat (length (blob n)) = n.
Proof. intros Hn. unfold blob. rewrite length_replicate. lia. Qed.

Lemma sizeOk_fs0 {F} `{Arith F} e :
  In e checkpointFiles -> sizeOk (F:=F) fs0 "ckpt" e = true.
Proof.
  intros Hin. unfold sizeOk. rewrite size_floatsOf, (fs0_lookup e Hin).
  assert (0 <= snd e).
  { revert Hin. unfold checkpointFiles. cbn [In].
    intros Hin.
    repeat (destruct Hin as [<- | Hin]; [ cbn [snd]; lia | ]).
    contradiction. }
  rewrite length_blob by lia.
  apply Z.eqb_eq. rewrite Z.mul_comm. apply Z.div_mul. lia.
Qed.

Lemma firstBad_fs0 {F} `{Arith F} : firstBad (F:=F) fs0 "ckpt" = None.
Proof.
  unfold firstBad.
  destruct (find _ checkpointFiles) as [e|] eqn:Hfind; [ | reflexivity ].
  apply find_some in Hfind. destruct Hfind as [Hin Hbad].
  rewrite (sizeOk_fs0 e Hin) in Hbad. discriminate.
Qed.

Lemma firstBad_None_sizes {F} `{Arith F} fs prefix e :
  firstBad (F:=F) fs prefix = None -> In e checkpointFiles ->
  size (floatsOf (F:=F) fs (prefix +:+ fst e)) = snd e.
Proof.
  intros Hnone Hin. unfold firstBad in Hnone.
  pose proof (find_none _ _ Hnone e Hin) as Hok. cbv beta in Hok.
  apply negb_false_iff in Hok. apply Z.eqb_eq. exact Hok.
Qed.

(** C2, as amended.  A block loaded from a checkpoint has, as query, key and
    value projections, the three consecutive blocks of 768 rows of the fused
    2304 x 768 weight array that [af::array] builds from the file, in this
    order, and as their biases the three consecutive segments of length 768
    of the fused bias.  The fused arrays are the file contents (768 * 2304
    and 2304 floats, as validated) taken in column-major order: element
    (i, c) of the weight array is float number [i + 2304 * c] of the file. *)
Theorem load_qkv_row_blocks {F} `{Arith F} fs prefix out blk out' :
  VisionTransformer_load (F:=F) fs prefix out = (inr blk, out') ->
  let w := floatsOf (F:=F) fs (prefix +:+ ".attn.qkv.weight.bin") in
  let b := floatsOf (F:=F) fs (prefix +:+ ".attn.qkv.bias.bin") in
  let all_w := array2 2304 768 w in
  let all_b := array1 2304 b in
  (size w = 768 * 2304 /\ size b = 2304) /\
  (dims (weight (wq_ blk)) = Dim4 768 768 1 1 /\
   dims (weight (wk_ blk)) = Dim4 768 768 1 1 /\
   dims (weight (wv_ blk)) = Dim4 768 768 1 1 /\
   dims (bias (wq_ blk)) = Dim4 768 1 1 1 /\
   dims (bias (wk_ blk)) = Dim4 768 1 1 1 /\
   dims (bias (wv_ blk)) = Dim4 768 1 1 1) /\
  (forall r c, 0 <= r < 768 -> 0 <= c < 768 ->
     at4 (weight (wq_ blk)) r c 0 0 = at4 all_w r c 0 0 /\
     at4 (weight (wk_ blk)) r c 0 0 = at4 all_w (768 + r) c 0 0 /\
     at4 (weight (wv_ blk)) r c 0 0 = at4 all_w (2 * 768 + r) c 0 0) /\
  (forall r, 0 <= r < 768 ->
     at4 (bias (wq_ blk)) r 0 0 0 = at4 all_b r 0 0 0 /\
     at4 (bias (wk_ blk)) r 0 0 0 = at4 all_b (768 + r) 0 0 0 /\
     at4 (bias (wv_ blk)) r 0 0 0 = at4 all_b (2 * 768 + r) 0 0 0) /\
  (forall i c, 0 <= i < 2304 -> 0 <= c < 768 ->
     at4 all_w i c 0 0 = default f0 (w !! Z.to_nat (i + 2304 * c))) /\
  (forall i, 0 <= i < 2304 ->
     at4 all_b i 0 0 0 = default f0 (b !! Z.to_nat i)).
Proof.
  intros Hload w b all_w all_b.
  destruct (load_inv _ _ _ _ _ Hload)
    as (Hnone & _ & _ & _ & Hq & Hk & Hv).
  fold w b all_w all_b in Hq, Hk, Hv.
  split; [ split | ].
  - apply (firstBad_None_sizes fs prefix (".attn.qkv.weight.bin", 768 * 2304) Hnone).
    unfold checkpointFiles. cbn [In]. tauto.
  - apply (firstBad_None_sizes fs prefix (".attn.qkv.bias.bin", 2304) Hnone).
    unfold checkpointFiles. cbn [In]. tauto.
  - rewrite Hq, Hk, Hv. cbn [weight bias].
    split; [ repeat split | ].
    split; [ | split; [ | split ] ].
    + intros r c Hr Hc.
      rewrite !at4_rows by (apply inb_true; cbn; lia).
      rewrite Z.add_0_l. auto.
    + intros r Hr.
      rewrite !at4_rows by (apply inb_true; cbn; lia).
      rewrite Z.add_0_l. auto.
    + intros i c Hi Hc. apply at4_array2; lia.
    + intros i Hi. apply at4_array1; lia.
Qed.

Lemma load_fs0 {F} `{Arith F} :
  exists blk out',
    VisionTransformer_load (F:=F) fs0 "ckpt" [] = (inr blk, out').
Proof.
  destruct (load_noBad (F:=F) fs0 "ckpt" [] firstBad_fs0) as [blk Hblk].
  exists blk, (snd (VisionTransformer_load (F:=F) fs0 "ckpt" [])).
  rewrite <- Hblk. apply surjective_pairing.
Qed.

Lemma load_qkv_row_blocks_witness :
  exists blk out',
    VisionTransformer_load (F:=float) fs0 "ckpt" [] = (inr blk, out') /\
    size (floatsOf (F:=float) fs0 "ckpt.attn.qkv.weight.bin") = 768 * 2304 /\
    at4 (weight (wk_ blk)) 5 7 0 0
    = at4 (array2 2304 768 (floatsOf fs0 "ckpt.attn.qkv.weight.bin")) (768 + 5) 7 0 0.
Proof.
  destruct (load_fs0 (F:=float)) as (blk & out' & Hload).
  exists blk, out'. split; [ exact Hload | ].
  pose proof (load_qkv_row_blocks fs0 "ckpt" [] blk out' Hload) as Hsplit.
  cbv zeta in Hsplit.
  destruct Hsplit as ((Hw & _) & _ & Hrows & _).
  split; [ exact Hw | ].
  destruct (Hrows 5 7) as (_ & Hk & _); [ lia | lia | exact Hk ].
Defined.

Lemma take4_drop (fin : list byte) n b0 b1 b2 b3 :
  fin !! n = Some b0 -> fin !! (n + 1)%nat = Some b1 ->
  fin !! (n + 2)%nat = Some b2 -> fin !! (n + 3)%nat = Some b3 ->
  take 4 (drop n fin) = [b0; b1; b2; b3].
Proof.
  intros H0 H1 H2 H3.
  rewrite <- (Nat.add_0_r n) in H0.
  rewrite <- lookup_drop in H0, H1, H2, H3.
  destruct (drop n fin) as [|c0 [|c1 [|c2 [|c3 rest]]]];
    cbn in H0, H1, H2, H3; try discriminate.
  injection H0 as ->. injection H1 as ->. injection H2 as ->.
  injection H3 as ->. reflexivity.
Qed.

Lemma floatsOf_lookup {F} `{Arith F} (fs : gmap string (list byte)) p fin i
    b0 b1 b2 b3 :
  fs !! p = Some fin ->
  fin !! (4 * i)%nat = Some b0 -> fin !! (4 * i + 1)%nat = Some b1 ->
  fin !! (4 * i + 2)%nat = Some b2 -> fin !! (4 * i + 3)%nat = Some b3 ->
  floatsOf (F:=F) fs p !! i = Some (of_bits (le32 [b0; b1; b2; b3])).
Proof.
  intros Hfile H0 H1 H2 H3. unfold floatsOf, readfloats. rewrite Hfile.
  cbn [fst ret].
  change (map ?g ?xs) with (g <$> xs).
  rewrite list_lookup_fmap.
  assert (Hlen : (4 * i + 3 < length fin)%nat)
    by (apply lookup_lt_is_Some; eexists; exact H3).
  assert (Hi : (i < length fin / 4)%nat)
    by (apply Nat.div_le_lower_bound; lia).
  rewrite lookup_seq_lt by exact Hi. cbn [fmap option_fmap option_map].
  rewrite Nat.add_0_l.
  rewrite (take4_drop fin (4 * i) b0 b1 b2 b3 H0 H1 H2 H3). reflexivity.
Qed.

(** *** A checkpoint that tells the two layouts apart *)

Lemma length_markedQkv : Z.of_nat (length markedQkv) = 4 * (768 * 2304).
Proof.
  unfold markedQkv, blob. rewrite !length_app, !length_replicate.
  cbn [length]. lia.
Qed.

Lemma markedQkv_lookup z :
  0 <= z < 4 * (768 * 2304) ->
  markedQkv !! Z.to_nat z
  = Some (if z =? 4 * 768 + 2 then x80
          else if z =? 4 * 768 + 3 then x3f else x00).
Proof.
  intros Hz. unfold markedQkv, blob.
  destruct (Z.lt_ge_cases z (4 * 768)) as [Hlo | Hhi].
  - rewrite lookup_app_l by (rewrite length_replicate; lia).
    rewrite lookup_replicate_2 by lia.
    destruct (Z.eqb_spec z (4 * 768 + 2)); [ lia | ].
    destruct (Z.eqb_spec z (4 * 768 + 3)); [ lia | ]. reflexivity.
  - rewrite lookup_app_r by (rewrite length_replicate; lia).
    rewrite length_replicate.
    destruct (Z.lt_ge_cases z (4 * 768 + 4)) as [Hmid | Hup].
    + rewrite lookup_app_l by (cbn [length]; lia).
      assert (Hcases : z = 4 * 768 \/ z = 4 * 768 + 1 \/ z = 4 * 768 + 2
                       \/ z = 4 * 768 + 3) by lia.
      destruct Hcases as [-> | [-> | [-> | ->]]]; reflexivity.
    + rewrite lookup_app_r by (cbn [length]; lia). cbn [length].
      rewrite lookup_replicate_2 by lia.
      destruct (Z.eqb_spec z (4 * 768 + 2)); [ lia | ].
      destruct (Z.eqb_spec z (4 * 768 + 3)); [ lia | ]. reflexivity.
Qed.

Lemma fs2_lookup e :
  In e checkpointFiles ->
  fs2 !! ("ckpt" +:+ fst e)
  = Some (if String.eqb (fst e) ".attn.qkv.weight.bin"
          then markedQkv else blob (4 * snd e)).
Proof.
  intros Hin. unfold fs2.
  destruct (String.eqb_spec (fst e) ".attn.qkv.weight.bin") as [Heq | Hne].
  - rewrite Heq.
    change ("ckpt" +:+ ".attn.qkv.weight.bin") with "ckpt.attn.qkv.weight.bin".
    apply lookup_insert_eq.
  - rewrite lookup_insert_ne; [ apply fs0_lookup; exact Hin | ].
    intros Heq. apply Hne. vm_compute in Heq. injection Heq as Heq.
    symmetry. exact Heq.
Qed.

Lemma sizeOk_fs2 {F} `{Arith F} e :
  In e checkpointFiles -> sizeOk (F:=F) fs2 "ckpt" e = true.
Proof.
  intros Hin. unfold sizeOk. rewrite size_floatsOf, (fs2_lookup e Hin).
  apply Z.eqb_eq.
  revert Hin. unfold checkpointFiles. cbn [In]. intros Hin.
  repeat (destruct Hin as [<- | Hin];
          [ cbn [fst snd];
            match goal with
            | |- context [String.eqb ?a ?b] =>
                let v := eval vm_compute in (String.eqb a b) in
                change (String.eqb a b) with v
            end;
            cbv iota;
            lazymatch goal with
            | |- context [length markedQkv] => rewrite length_markedQkv
            | _ => rewrite length_blob by lia
            end;
            reflexivity
          | ]).
  contradiction.
Qed.

Lemma firstBad_fs2 {F} `{Arith F} : firstBad (F:=F) fs2 "ckpt" = None.
Proof.
  unfold firstBad.
  destruct (find _ checkpointFiles) as [e|] eqn:Hfind; [ | reflexivity ].
  apply find_some in Hfind. destruct Hfind as [Hin Hbad].
  rewrite (sizeOk_fs2 e Hin) in Hbad. discriminate.
Qed.

(** The floats of the marked file: number 768 is one, the others are zero. *)
Lemma floatsOf_fs2 n :
  0 <= n < 768 * 2304 ->
  floatsOf (F:=float) fs2 "ckpt.attn.qkv.weight.bin" !! Z.to_nat n
  = Some (if n =? 768 then 1%float else 0%float).
Proof.
  intros Hn.
  assert (Hfile : fs2 !! "ckpt.attn.qkv.weight.bin" = Some markedQkv)
    by apply lookup_insert_eq.
  assert (Hbyte : forall j, 0 <= j < 4 ->
            markedQkv !! (4 * Z.to_nat n + Z.to_nat j)%nat
            = Some (if 4 * n + j =? 4 * 768 + 2 then x80
                    else if 4 * n + j =? 4 * 768 + 3 then x3f else x00)).
  { intros j Hj.
    replace (4 * Z.to_nat n + Z.to_nat j)%nat with (Z.to_nat (4 * n + j))
      by lia.
    apply markedQkv_lookup. lia. }
  pose proof (Hbyte 0 ltac:(lia)) as H0. pose proof (Hbyte 1 ltac:(lia)) as H1.
  pose proof (Hbyte 2 ltac:(lia)) as H2. pose proof (Hbyte 3 ltac:(lia)) as H3.
  change (Z.to_nat 0) with 0%nat in H0. rewrite Nat.add_0_r in H0.
  change (Z.to_nat 1) with 1%nat in H1. change (Z.to_nat 2) with 2%nat in H2.
  change (Z.to_nat 3) with 3%nat in H3.
  pose proof (floatsOf_lookup (F:=float) fs2 "ckpt.attn.qkv.weight.bin"
                markedQkv (Z.to_nat n) _ _ _ _ Hfile H0 H1 H2 H3) as Hfloat.
  rewrite Hfloat. f_equal.
  destruct (Z.eqb_spec n 768) as [-> | Hne].
  - vm_compute. reflexivity.
  - destruct (Z.eqb_spec (4 * n + 0) (4 * 768 + 2)); [ lia | ].
    destruct (Z.eqb_spec (4 * n + 0) (4 * 768 + 3)); [ lia | ].
    destruct (Z.eqb_spec (4 * n + 1) (4 * 768 + 2)); [ lia | ].
    destruct (Z.eqb_spec (4 * n + 1) (4 * 768 + 3)); [ lia | ].
    destruct (Z.eqb_spec (4 * n + 2) (4 * 768 + 2)); [ lia | ].
    destruct (Z.eqb_spec (4 * n + 2) (4 * 768 + 3)); [ lia | ].
    destruct (Z.eqb_spec (4 * n + 3) (4 * 768 + 2)); [ lia | ].
    destruct (Z.eqb_spec (4 * n + 3) (4 * 768 + 3)); [ lia | ].
    vm_compute. reflexivity.
Qed.

(** C2, as stated, fails when the stored array is the row-major 2304 x 768
    matrix of the specification.  In a well-sized checkpoint whose fused
    weight file has 1.0 as float number 768 and zero elsewhere, the load
    succeeds and element (0, 0) of the key projection is that 1.0, float
    number 768 of the file, which row-major is element (1, 0) of the stored
    matrix; element (0, 0) of the second block of 768 rows of the stored
    matrix, its element (768, 0), is float number 768 * 768 of the file,
    which is zero. *)
Lemma load_qkv_blocks_are_not_row_major_blocks :
  exists blk out',
    VisionTransformer_load (F:=float) fs2 "ckpt" [] = (inr blk, out') /\
    size (floatsOf (F:=float) fs2 "ckpt.attn.qkv.weight.bin") = 768 * 2304 /\
    at4 (weight (wk_ blk)) 0 0 0 0 = 1%float /\
    at4 (weight (wk_ blk)) 0 0 0 0
    = specRowMajor 768 (floatsOf fs2 "ckpt.attn.qkv.weight.bin") 1 0 /\
    specRowMajor 768 (floatsOf (F:=float) fs2 "ckpt.attn.qkv.weight.bin")
      (768 + 0) 0
    = 0%float /\
    at4 (weight (wk_ blk)) 0 0 0 0
    <> specRowMajor 768 (floatsOf fs2 "ckpt.attn.qkv.weight.bin") (768 + 0) 0.
Proof.
  destruct (load_noBad (F:=float) fs2 "ckpt" [] firstBad_fs2) as [blk Hblk].
  exists blk, (snd (VisionTransformer_load (F:=float) fs2 "ckpt" [])).
  assert (Hload : VisionTransformer_load (F:=float) fs2 "ckpt" []
                  = (inr blk, snd (VisionTransformer_load (F:=float) fs2 "ckpt" [])))
    by (rewrite <- Hblk; apply surjective_pairing).
  split; [ exact Hload | ].
  destruct (load_inv _ _ _ _ _ Hload) as (Hnone & _ & _ & _ & _ & Hk & _).
  change ("ckpt" +:+ ".attn.qkv.weight.bin") with "ckpt.attn.qkv.weight.bin"
    in Hk.
  assert (Hwk : at4 (weight (wk_ blk)) 0 0 0 0 = 1%float).
  { rewrite Hk. cbn [weight].
    rewrite at4_rows by (apply inb_true; cbn [dims array2 d0 d1 d2 d3]; lia).
    rewrite at4_array2 by lia.
    replace (768 + 0 + 2304 * 0) with 768 by lia.
    rewrite (floatsOf_fs2 768) by lia. reflexivity. }
  assert (Hone : specRowMajor 768
                   (floatsOf (F:=float) fs2 "ckpt.attn.qkv.weight.bin") 1 0
                 = 1%float).
  { unfold specRowMajor. replace (1 * 768 + 0) with 768 by lia.
    rewrite (floatsOf_fs2 768) by lia. reflexivity. }
  assert (Hzero : specRowMajor 768
                    (floatsOf (F:=float) fs2 "ckpt.attn.qkv.weight.bin")
                    (768 + 0) 0
                  = 0%float).
  { unfold specRowMajor. rewrite (floatsOf_fs2 ((768 + 0) * 768 + 0)) by lia.
    reflexivity. }
  split.
  { apply (firstBad_None_sizes fs2 "ckpt" (".attn.qkv.weight.bin", 768 * 2304)
             Hnone).
    unfold checkpointFiles. cbn [In]. do 4 right. left. reflexivity. }
  split; [ exact Hwk | ].
  split; [ rewrite Hwk, Hone; reflexivity | ].
  split; [ exact Hzero | ].
  rewrite Hwk, Hzero. intros Heq.
  apply (f_equal (fun x => PrimFloat.ltb 0%float x)) in Heq.
  vm_compute in Heq. discriminate Heq.
Qed.

(** ** Rejection of malformed checkpoints *)

Lemma find_first {A} (f : A -> bool) (l : list A) k e :
  l !! k = Some e -> f e = true ->
  exists j x,
    (j <= k)%nat /\ l !! j = Some x /\ f x = true /\ find f l = Some x /\
    forall i y, (i < j)%nat -> l !! i = Some y -> f y = false.
Proof.
  revert k. induction l as [|a l IH]; intros k Hk He.
  - discriminate.
  - destruct (f a) eqn:Hfa.
    + exists 0%nat, a. cbn. rewrite Hfa. repeat split; [ lia | ].
      intros i y Hi. lia.
    + destruct k as [|k]; cbn in Hk.
      * injection Hk as ->. congruence.
      * destruct (IH k Hk He) as (j & x & Hjk & Hj & Hx & Hfind & Hbefore).
        exists (S j), x. cbn. rewrite Hfa. repeat split; [ lia | assumption.. | ].
        intros [|i] y Hi Hy; cbn in Hy.
        -- congruence.
        -- apply (Hbefore i); [ lia | assumption ].
Qed.

Lemma sizeOk_false {F} `{Arith F} fs prefix e :
  negb (sizeOk (F:=F) fs prefix e) = true <->
  size (floatsOf (F:=F) fs (prefix +:+ fst e)) <> snd e.
Proof. unfold sizeOk. rewrite negb_true_iff. apply Z.eqb_neq. Qed.

Lemma sizeOk_true {F} `{Arith F} fs prefix e :
  negb (sizeOk (F:=F) fs prefix e) = false <->
  size (floatsOf (F:=F) fs (prefix +:+ fst e)) = snd e.
Proof. unfold sizeOk. rewrite negb_false_iff. apply Z.eqb_eq. Qed.

Lemma expected_positive e : In e checkpointFiles -> 0 < snd e.
Proof.
  unfold checkpointFiles. cbn [In]. intros Hin.
  repeat (destruct Hin as [<- | Hin]; [ cbn [snd]; lia | ]).
  contradiction.
Qed.

(** C3, as amended.  When the file at position [k] of the checkpoint has an
    element count other than the expected one, construction fails, and the
    error names the first file in reading order whose count is wrong: a file
    at or before position [k], and the file at [k] itself when all files read
    before it have the expected counts.  A file that cannot be opened reads
    as zero elements, which is no expected count. *)
Theorem load_rejects_first_bad_file {F} `{Arith F} fs prefix out k e :
  checkpointFiles !! k = Some e ->
  size (floatsOf (F:=F) fs (prefix +:+ fst e)) <> snd e ->
  (exists j e',
     (j <= k)%nat /\ checkpointFiles !! j = Some e' /\
     size (floatsOf (F:=F) fs (prefix +:+ fst e')) <> snd e' /\
     (forall i e'', (i < j)%nat -> checkpointFiles !! i = Some e'' ->
        size (floatsOf (F:=F) fs (prefix +:+ fst e'')) = snd e'') /\
     fst (VisionTransformer_load (F:=F) fs prefix out) = inl (fst e')) /\
  ((forall i e'', (i < k)%nat -> checkpointFiles !! i = Some e'' ->
      size (floatsOf (F:=F) fs (prefix +:+ fst e'')) = snd e'') ->
   fst (VisionTransformer_load (F:=F) fs prefix out) = inl (fst e)) /\
  (forall e', In e' checkpointFiles -> fs !! (prefix +:+ fst e') = None ->
     size (floatsOf (F:=F) fs (prefix +:+ fst e')) = 0 /\
     size (floatsOf (F:=F) fs (prefix +:+ fst e')) <> snd e').
Proof.
  intros Hk Hbad.
  destruct (find_first (fun e => negb (sizeOk (F:=F) fs prefix e))
              checkpointFiles k e Hk (proj2 (sizeOk_false fs prefix e) Hbad))
    as (j & e' & Hjk & Hj & Hbad' & Hfind & Hbefore).
  pose proof (load_firstBad fs prefix out e' Hfind) as Hload.
  split; [ | split ].
  - exists j, e'. repeat split; try assumption.
    + apply sizeOk_false. exact Hbad'.
    + intros i e'' Hi He''. apply sizeOk_true. apply (Hbefore i); assumption.
  - intros Hprior.
    destruct (decide (j = k)) as [-> | Hne].
    + rewrite Hk in Hj. injection Hj as <-. exact Hload.
    + apply sizeOk_false in Hbad'.
      exfalso. apply Hbad'. apply (Hprior j); [ lia | assumption ].
  - intros e0 Hin Hnone.
    rewrite size_floatsOf, Hnone.
    pose proof (expected_positive e0 Hin). split; lia.
Qed.

Lemma load_rejects_first_bad_file_witness :
  size (floatsOf (F:=float) ∅ "ckpt.mlp.fc1.weight.bin") <> 768 * 3072 /\
  fst (VisionTransformer_load (F:=float) ∅ "ckpt" []) = inl ".mlp.fc1.weight.bin".
Proof.
  assert (Hbad : size (floatsOf (F:=float) ∅
                         ("ckpt" +:+ fst (".mlp.fc1.weight.bin", 768 * 3072)))
                 <> snd (".mlp.fc1.weight.bin", 768 * 3072))
    by (vm_compute; discriminate).
  split; [ exact Hbad | ].
  apply (proj1 (proj2 (load_rejects_first_bad_file (F:=float) ∅ "ckpt" [] 0%nat
                         (".mlp.fc1.weight.bin", 768 * 3072) eq_refl Hbad))).
  intros i e'' Hi. lia.
Defined.

(** C3, as stated, fails: with the first file of the checkpoint holding 100
    floats and the second file missing, the second file's count (zero) is not
    the expected 3072, yet the error names the first file and not the
    second. *)
Lemma load_error_names_first_bad_file_only :
  In (".mlp.fc1.bias.bin", 3072) checkpointFiles /\
  size (floatsOf (F:=float) fs1 "ckpt.mlp.fc1.bias.bin") = 0 /\
  size (floatsOf (F:=float) fs1 "ckpt.mlp.fc1.weight.bin") = 100 /\
  fst (VisionTransformer_load (F:=float) fs1 "ckpt" [])
  = inl ".mlp.fc1.weight.bin" /\
  fst (VisionTransformer_load (F:=float) fs1 "ckpt" [])
  <> inl ".mlp.fc1.bias.bin".
Proof.
  split; [ unfold checkpointFiles; cbn [In]; tauto | ].
  split; [ vm_compute; reflexivity | ].
  split; [ vm_compute; reflexivity | ].
  assert (Hfirst : firstBad (F:=float) fs1 "ckpt"
                   = Some (".mlp.fc1.weight.bin", 768 * 3072))
    by (vm_compute; reflexivity).
  rewrite (load_firstBad fs1 "ckpt" [] _ Hfirst). cbn [fst].
  split; [ reflexivity | discriminate ].
Qed.

(** ** The forward pass *)

Section ForwardFacts.
Context {F : Type} `{Elementary F}.

Lemma dropout_zero (x : array F) g :
  fgtb (flit 0 : F) (flit 0) = false -> dropout x (flit 0) g = (x, g).
Proof. intros Hirr. unfold dropout, f0. rewrite Hirr. reflexivity. Qed.

Lemma mlp_no_dropout (self : VisionTransformer F) x g :
  fgtb (flit 0 : F) (flit 0) = false ->
  (if train_ self then pDropout_ self else flit 0) = flit 0 ->
  mlp self x g
  = (Linear_forward (w2_ self) (gelu (Linear_forward (w1_ self) x)), g).
Proof.
  intros Hirr Hp. unfold mlp. rewrite Hp, !dropout_zero by exact Hirr.
  reflexivity.
Qed.

Lemma selfAttention_no_dropout (self : VisionTransformer F) x g :
  fgtb (flit 0 : F) (flit 0) = false ->
  (if train_ self then pDropout_ self else flit 0) = flit 0 ->
  selfAttention self x g
  = (Linear_forward (wf_ self)
       (transpose
          (moddims (matmul (selfAttention_attn self x)
                           (snd (selfAttention_qkv self x)))
                   (Dim4 (-1) (mul32 (headDim_ self) (nHeads_ self))
                         (d2 (dims x)) 1))), g).
Proof.
  intros Hirr Hp. unfold selfAttention. rewrite Hp.
  destruct (selfAttention_qkv self x) as [[q k] v]. cbn [snd].
  rewrite dropout_zero by exact Hirr. reflexivity.
Qed.

Lemma dropPath_eval (self : VisionTransformer F) x g :
  train_ self = false -> dropPath self x g = (x, g).
Proof. intros Hev. unfold dropPath. rewrite Hev. reflexivity. Qed.

Lemma forward_one (self : VisionTransformer F) (x : array F) g
    a g1 a' g2 m g3 m' g4 :
  selfAttention self (LayerNorm_forward (norm1_ self) x) g = (a, g1) ->
  dropPath self a g1 = (a', g2) ->
  mlp self (LayerNorm_forward (norm2_ self) (azip fadd x a')) g2 = (m, g3) ->
  dropPath self m g3 = (m', g4) ->
  forward self [x] g = (inr [azip fadd (azip fadd x a') m'], g4).
Proof.
  intros Hsa Hdp1 Hmlp Hdp2. unfold forward.
  change (Z.of_nat (length [x]) =? 1) with true. cbn [negb].
  change (front [x]) with x. cbv zeta.
  rewrite Hsa, Hdp1, Hmlp, Hdp2. reflexivity.
Qed.

Lemma forward_not_one (self : VisionTransformer F) (inputs : list (array F)) g :
  length inputs <> 1%nat ->
  forward self inputs g = (inl "VisionTransformer forward, >1 inputs", g).
Proof.
  intros Hlen. unfold forward.
  destruct (Z.of_nat (length inputs) =? 1) eqn:Heq; [ | reflexivity ].
  apply Z.eqb_eq in Heq. lia.
Qed.

(** C1.  On a single tensor [x], [forward] computes
    [output = x + dropPath(selfAttention(norm1(x)))], then
    [output + dropPath(mlp(norm2(output)))], the random generator passing
    through the four calls in this order, and returns that one tensor. *)
Theorem forward_pipeline (self : VisionTransformer F) (x : array F) g :
  let sa := selfAttention self (LayerNorm_forward (norm1_ self) x) g in
  let dp1 := dropPath self (fst sa) (snd sa) in
  let output := azip fadd x (fst dp1) in
  let ml := mlp self (LayerNorm_forward (norm2_ self) output) (snd dp1) in
  let dp2 := dropPath self (fst ml) (snd ml) in
  forward self [x] g = (inr [azip fadd output (fst dp2)], snd dp2).
Proof.
  cbv zeta. eapply forward_one; apply surjective_pairing.
Qed.

(** C7.  [forward] throws exactly when it is not given one tensor: it throws,
    with the generator untouched, on an empty collection and on one of two or
    more tensors, and returns a result on every collection of one tensor. *)
Theorem forward_arity (self : VisionTransformer F) (inputs : list (array F)) g :
  ((exists what, fst (forward self inputs g) = inl what)
   <-> length inputs <> 1%nat) /\
  (length inputs <> 1%nat ->
   forward self inputs g = (inl "VisionTransformer forward, >1 inputs", g)) /\
  (length inputs = 1%nat ->
   exists output, fst (forward self inputs g) = inr [output]).
Proof.
  assert (Hgood : length inputs = 1%nat ->
                  exists output, fst (forward self inputs g) = inr [output]).
  { intros Hlen. destruct inputs as [|x [|y rest]]; try discriminate.
    eexists.
    erewrite forward_one; [ reflexivity | apply surjective_pairing.. ]. }
  split; [ split | split; [ apply forward_not_one | assumption ] ].
  - intros [what Hwhat]. intros Hlen.
    destruct (Hgood Hlen) as [output Hout]. congruence.
  - intros Hlen. rewrite (forward_not_one self inputs g Hlen).
    eexists. reflexivity.
Qed.

(** C8.  In evaluation mode the result of [forward] does not depend on the
    random generator, and the generator is left as it was: no draw is made,
    because [mlp] and [selfAttention] call the dropout with probability zero
    and [dropPath] returns its argument. *)
Theorem forward_eval_deterministic (self : VisionTransformer F)
    (inputs : list (array F)) g g' :
  train_ self = false ->
  fgtb (flit 0 : F) (flit 0) = false ->
  fst (forward self inputs g) = fst (forward self inputs g') /\
  snd (forward self inputs g) = g /\
  (forall x h, dropPath self x h = (x, h)) /\
  (forall x h, snd (mlp self x h) = h /\ fst (mlp self x h) = fst (mlp self x g)) /\
  (forall x h, snd (selfAttention self x h) = h /\
               fst (selfAttention self x h) = fst (selfAttention self x g)).
Proof.
  intros Hev Hirr.
  assert (Hp : (if train_ self then pDropout_ self else flit 0) = flit 0)
    by (rewrite Hev; reflexivity).
  assert (Hfw : forall h, forward self inputs h
                          = (fst (forward self inputs g), h)).
  { destruct (decide (length inputs = 1%nat)) as [Hlen | Hlen].
    2: { intros h. rewrite !(forward_not_one self inputs _ Hlen). reflexivity. }
    destruct inputs as [|x [|y rest]]; try discriminate.
    assert (Hval : exists output, forall h, forward self [x] h = (inr [output], h)).
    { eexists. intros h. eapply forward_one.
      - apply (selfAttention_no_dropout self _ _ Hirr Hp).
      - apply (dropPath_eval self _ _ Hev).
      - apply (mlp_no_dropout self _ _ Hirr Hp).
      - apply (dropPath_eval self _ _ Hev). }
    destruct Hval as [output Hval]. intros h. rewrite !Hval. reflexivity. }
  split; [ | split; [ | split; [ | split ] ] ].
  - rewrite (Hfw g'). reflexivity.
  - rewrite (Hfw g). reflexivity.
  - intros x h. apply dropPath_eval. exact Hev.
  - intros x h. rewrite !(mlp_no_dropout self _ _ Hirr Hp). split; reflexivity.
  - intros x h. rewrite !(selfAttention_no_dropout self _ _ Hirr Hp).
    split; reflexivity.
Qed.

(** C9.  A block loaded from a checkpoint has both probabilities zero,
    whatever the files hold.  It is in training mode as built, and in either
    mode [mlp] and [selfAttention] draw nothing and apply no mask: each
    dropout returns its argument. *)
Theorem load_dropout_disabled fs prefix out (blk : VisionTransformer F) out' :
  VisionTransformer_load (F:=F) fs prefix out = (inr blk, out') ->
  fgtb (flit 0 : F) (flit 0) = false ->
  train_ blk = true /\ pDropout_ blk = flit 0 /\ pLayerdrop_ blk = flit 0 /\
  (forall x g, dropout x (pDropout_ blk) g = (x, g)) /\
  (forall mode x g,
     let b := setTrain mode blk in
     mlp b x g
     = (Linear_forward (w2_ b) (gelu (Linear_forward (w1_ b) x)), g)) /\
  (forall mode x g,
     let b := setTrain mode blk in
     selfAttention b x g
     = (Linear_forward (wf_ b)
          (transpose
             (moddims (matmul (selfAttention_attn b x)
                              (snd (selfAttention_qkv b x)))
                      (Dim4 (-1) (mul32 (headDim_ b) (nHeads_ b))
                            (d2 (dims x)) 1))), g)).
Proof.
  intros Hload Hirr.
  destruct (load_inv _ _ _ _ _ Hload) as (_ & Htrain & Hp & Hl & _).
  assert (Hp' : forall mode,
            (if train_ (setTrain mode blk)
             then pDropout_ (setTrain mode blk) else flit 0) = flit 0).
  { intros mode. cbn [setTrain train_ pDropout_].
    destruct mode; [ exact Hp | reflexivity ]. }
  repeat split; try assumption.
  - intros x g. rewrite Hp. apply dropout_zero. exact Hirr.
  - intros mode x g. cbv zeta. apply mlp_no_dropout; [ exact Hirr | apply Hp' ].
  - intros mode x g. cbv zeta.
    apply selfAttention_no_dropout; [ exact Hirr | apply Hp' ].
Qed.
End ForwardFacts.

Lemma R_gtb_irrefl (x : R) : R_gtb x x = false.
Proof. unfold R_gtb. destruct (Rlt_dec x x) as [Hlt|]; [ lra | reflexivity ]. Qed.

Lemma forward_eval_deterministic_witness :
  fst (forward (unitBlock false) [unitInput] (MkRng (fun _ => 0%R) 0))
  = fst (forward (unitBlock false) [unitInput] (MkRng (fun _ => 1%R) 5)) /\
  snd (forward (unitBlock false) [unitInput] (MkRng (fun _ => 0%R) 0))
  = MkRng (fun _ => 0%R) 0.
Proof.
  pose proof (forward_eval_deterministic (unitBlock false) [unitInput]
                (MkRng (fun _ => 0%R) 0) (MkRng (fun _ => 1%R) 5)
                eq_refl (R_gtb_irrefl _)) as Hdet.
  split; [ exact (proj1 Hdet) | exact (proj1 (proj2 Hdet)) ].
Defined.

Lemma load_dropout_disabled_witness :
  exists blk out',
    VisionTransformer_load (F:=R) fs0 "ckpt" [] = (inr blk, out') /\
    train_ blk = true /\ pDropout_ blk = 0%R /\
    forall x g, snd (mlp (setTrain true blk) x g) = g.
Proof.
  destruct (load_fs0 (F:=R)) as (blk & out' & Hload).
  exists blk, out'. split; [ exact Hload | ].
  destruct (load_dropout_disabled fs0 "ckpt" [] blk out' Hload (R_gtb_irrefl _))
    as (Htrain & Hp & _ & _ & Hmlp & _).
  split; [ exact Htrain | ]. split.
  - rewrite Hp. cbn. unfold Q2R. cbn. lra.
  - intros x g. rewrite (Hmlp true x g). reflexivity.
Defined.

(** ** GELU *)

Lemma gelu_elementwise {F} `{Elementary F} (input : array F) :
  gelu input = amap gelu_formula input.
Proof.
  unfold gelu, amap, azip. cbn [dims host]. f_equal.
  induction (host input) as [|x l IH]; cbn [map zip_with].
  - reflexivity.
  - f_equal. exact IH.
Qed.

Lemma Q2R_lit n d : Q2R (n # d) = (IZR n / IZR (Zpos d))%R.
Proof. reflexivity. Qed.

Lemma R_pi : pi (F:=R) = PI.
Proof.
  unfold pi. cbn [facos flit R_Elementary R_Arith].
  rewrite Q2R_lit.
  replace (-1 / 1)%R with (Ropp 1) by lra.
  rewrite acos_opp, acos_1. lra.
Qed.

(** C6.  [gelu] acts on each element by itself, leaving the shape as it is,
    and takes an element x to
    0.5 * x * (1 + tanh(sqrt(2/pi) * (x + 0.044715 * x^3)));
    in particular it takes 0 to 0. *)
Theorem gelu_is_tanh_approximation :
  (forall F (HA : Arith F) (HE : Elementary F) (input : array F),
     dims (gelu input) = dims input /\
     host (gelu input) = map gelu_formula (host input)) /\
  (forall x : R,
     gelu_formula x
     = (0.5 * x * (1 + tanh (R_sqrt.sqrt (2 / PI) * (x + 0.044715 * x ^ 3))))%R) /\
  gelu_formula 0%R = 0%R /\
  (forall d n, gelu (Array d (replicate n 0%R)) = Array d (replicate n 0%R)).
Proof.
  assert (Hformula : forall x : R,
            gelu_formula x
            = (0.5 * x * (1 + tanh (R_sqrt.sqrt (2 / PI) * (x + 0.044715 * x ^ 3))))%R).
  { intros x. unfold gelu_formula, geluConst1, geluConst2. rewrite R_pi.
    cbn [fmul fadd fdiv flit ftanh fsqrt fpow R_Elementary R_Arith].
    rewrite !Q2R_lit. unfold R_pow. cbn [Qden Qnum Pos.eqb Z.leb Z.compare andb].
    change (Z.to_nat 3) with 3%nat.
    replace (1 / 2)%R with 0.5%R by lra.
    replace (1 / 1)%R with 1%R by lra.
    replace (2 / 1)%R with 2%R by lra.
    replace (44715 / 1000000)%R with 0.044715%R by lra.
    reflexivity. }
  assert (Hzero : gelu_formula 0%R = 0%R) by (rewrite Hformula; ring).
  split; [ | split; [ exact Hformula | split; [ exact Hzero | ] ] ].
  - intros F HA HE input. rewrite gelu_elementwise. split; reflexivity.
  - intros d n. rewrite gelu_elementwise. unfold amap. cbn [dims host].
    f_equal. induction n as [|n IH]; cbn [map replicate]; [ reflexivity | ].
    rewrite Hzero. f_equal. exact IH.
Qed.

(** ** Attention weights *)

Lemma fold_sum_ext {F} `{Arith F} (f g : Z -> F) (l : list Z) (a : F) :
  (forall c, In c l -> f c = g c) ->
  fold_left (fun acc c => fadd acc (f c)) l a
  = fold_left (fun acc c => fadd acc (g c)) l a.
Proof.
  revert a. induction l as [|c l IH]; intros a Hext; cbn [fold_left].
  - reflexivity.
  - rewrite (Hext c) by (left; reflexivity).
    apply IH. intros c' Hc'. apply Hext. right. exact Hc'.
Qed.

Lemma fsum_ext {F} `{Arith F} n (f g : Z -> F) :
  (forall c, 0 <= c < n -> f c = g c) -> fsum n f = fsum n g.
Proof.
  intros Hext. unfold fsum. apply fold_sum_ext.
  intros c Hc. apply Hext.
  apply list_elem_of_In, elem_of_seqZ in Hc. lia.
Qed.

Lemma R_f0 : (f0 : R) = 0%R.
Proof. unfold f0. cbn [flit R_Arith]. rewrite Q2R_lit. lra. Qed.

Lemma R_fold_sum_div (g : Z -> R) (s : R) (l : list Z) (a : R) :
  fold_left (fun acc c => fadd acc (fdiv (g c) s)) l (a / s)%R
  = (fold_left (fun acc c => fadd acc (g c)) l a / s)%R.
Proof.
  revert a. induction l as [|c l IH]; intros a; cbn [fold_left].
  - reflexivity.
  - cbn [fadd fdiv R_Arith].
    replace (a / s + g c / s)%R with ((a + g c) / s)%R by (unfold Rdiv; ring).
    apply IH.
Qed.

Lemma R_fsum_div n (g : Z -> R) (s : R) :
  fsum n (fun c => fdiv (g c) s) = (fsum n g / s)%R.
Proof.
  unfold fsum. rewrite <- R_fold_sum_div. rewrite R_f0.
  replace (0 / s)%R with 0%R by (unfold Rdiv; ring). reflexivity.
Qed.

Lemma R_fold_sum_pos (g : Z -> R) (l : list Z) (a : R) :
  (forall c, (0 < g c)%R) -> (0 < a)%R ->
  (0 < fold_left (fun acc c => fadd acc (g c)) l a)%R.
Proof.
  intros Hg. revert a. induction l as [|c l IH]; intros a Ha; cbn [fold_left].
  - exact Ha.
  - apply IH. cbn [fadd R_Arith]. pose proof (Hg c). lra.
Qed.

Lemma R_fsum_pos n (g : Z -> R) :
  0 < n -> (forall c, (0 < g c)%R) -> (0 < fsum n g)%R.
Proof.
  intros Hn Hg. unfold fsum. rewrite seqZ_cons by lia. cbn [fold_left].
  apply R_fold_sum_pos; [ exact Hg | ].
  rewrite R_f0. cbn [fadd R_Arith]. pose proof (Hg 0). lra.
Qed.

(** Along axis 1, the elements of [softmax1 a] add up to one. *)
Lemma softmax1_row_sum (a : array R) i k l :
  inb (dims a) i 0 k l = true ->
  fsum (d1 (dims a)) (fun j => at4 (softmax1 a) i j k l) = 1%R.
Proof.
  intros Hin. apply inb_true in Hin.
  rewrite (fsum_ext _ _
             (fun j => fdiv (fexp (at4 a i j k l))
                            (fsum (d1 (dims a)) (fun c => fexp (at4 a i c k l))))).
  - rewrite R_fsum_div. apply Rdiv_diag.
    apply Rgt_not_eq. apply R_fsum_pos; [ lia | ].
    intros c. apply exp_pos.
  - intros j Hj. unfold softmax1. rewrite at4_tabulate; [ reflexivity | ].
    apply inb_true. lia.
Qed.

Lemma inferDim_keep n d others : 0 < d -> inferDim n d others = d.
Proof.
  intros Hd. unfold inferDim.
  destruct (d =? -1) eqn:Heq; [ apply Z.eqb_eq in Heq; lia | reflexivity ].
Qed.

Lemma inferDim_fit t others : 0 <= t -> 0 < others ->
  inferDim (t * others) (-1) others = t.
Proof.
  intros Ht Ho. unfold inferDim. cbn [Z.eqb Pos.eqb].
  rewrite Z.quot_div_nonneg by nia. apply Z.div_mul. lia.
Qed.

(** The shape of a projection once reshaped to one slice per head and batch
    element. *)
Lemma dims_heads {F} `{Arith F} (m : Linear F) (x : array F) hd nH C T B :
  dims x = Dim4 C T B 1 -> 0 < hd -> 0 < nH -> 0 < B -> 0 <= T ->
  d0 (dims (weight m)) = hd * nH ->
  dims (moddims (transpose (Linear_forward m x)) (Dim4 (-1) hd (nH * B) 1))
  = Dim4 T hd (nH * B) 1.
Proof.
  intros Hx Hhd HnH HB HT Hw. unfold moddims, transpose, Linear_forward.
  cbn [dims tabulate d0 d1 d2 d3 elements]. rewrite Hx, Hw.
  cbn [d0 d1 d2 d3].
  rewrite (inferDim_keep _ hd) by lia.
  rewrite (inferDim_keep _ (nH * B)) by nia.
  rewrite (inferDim_keep _ 1) by lia.
  unfold elements. cbn [d0 d1 d2 d3].
  replace (T * (hd * nH) * B * 1) with (T * (hd * (nH * B) * 1)) by ring.
  rewrite inferDim_fit by nia. reflexivity.
Qed.

Lemma dims_scores (self : VisionTransformer R) (x : array R) C T B :
  dims x = Dim4 C T B 1 ->
  0 < headDim_ self -> 0 < nHeads_ self -> 0 < B -> 0 <= T ->
  d0 (dims (weight (wq_ self))) = headDim_ self * nHeads_ self ->
  d0 (dims (weight (wk_ self))) = headDim_ self * nHeads_ self ->
  dims (selfAttention_scores self x) = Dim4 T T (nHeads_ self * B) 1.
Proof.
  intros Hx Hhd HnH HB HT Hq Hk.
  unfold selfAttention_scores, selfAttention_qkv, matmulNT, amap.
  cbn [dims tabulate host]. rewrite Hx. cbn [d2].
  rewrite (dims_heads (wq_ self) x _ _ C T B Hx Hhd HnH HB HT Hq).
  rewrite (dims_heads (wk_ self) x _ _ C T B Hx Hhd HnH HB HT Hk).
  reflexivity.
Qed.

(** ** Drop-path *)

Section ConstantArrays.
Context {F : Type} `{Arith F}.

Lemma map_const {A} (f : A -> F) (l : list A) (c : F) :
  (forall a, In a l -> f a = c) -> map f l = replicate (length l) c.
Proof.
  induction l as [|a l IH]; intros Hc; cbn [map length replicate].
  - reflexivity.
  - rewrite (Hc a) by (left; reflexivity). f_equal.
    apply IH. intros a' Ha'. apply Hc. right. exact Ha'.
Qed.

Lemma coords_inb d n :
  0 < d0 d -> 0 < d1 d -> 0 < d2 d -> 0 < d3 d -> 0 <= n < elements d ->
  let '(i, j, k, l) := coords d n in inb d i j k l = true.
Proof.
  intros H0 H1 H2 H3 Hn. unfold coords. apply inb_true.
  unfold elements in Hn.
  pose proof (Z.mod_pos_bound n (d0 d) H0).
  pose proof (Z.mod_pos_bound (n / d0 d) (d1 d) H1).
  pose proof (Z.mod_pos_bound (n / (d0 d * d1 d)) (d2 d) H2).
  assert (0 <= n / (d0 d * d1 d * d2 d)) by (apply Z.div_pos; nia).
  assert (n / (d0 d * d1 d * d2 d) < d3 d)
    by (apply Z.div_lt_upper_bound; nia).
  lia.
Qed.

Lemma host_tabulate_const d (f : Z -> Z -> Z -> Z -> F) (c : F) :
  0 < d0 d -> 0 < d1 d -> 0 < d2 d -> 0 < d3 d ->
  (forall i j k l, inb d i j k l = true -> f i j k l = c) ->
  host (tabulate d f) = replicate (Z.to_nat (elements d)) c.
Proof.
  intros H0 H1 H2 H3 Hc. unfold tabulate. cbn [host].
  rewrite <- (length_seqZ 0 (elements d)). apply map_const.
  intros n Hn. apply list_elem_of_In, elem_of_seqZ in Hn.
  pose proof (coords_inb d n H0 H1 H2 H3 ltac:(lia)) as Hin.
  destruct (coords d n) as [[[i j] k] l]. apply Hc. exact Hin.
Qed.

Lemma at4_const (a : array F) (c : F) i j k l :
  host a = replicate (Z.to_nat (elements (dims a))) c ->
  inb (dims a) i j k l = true -> at4 a i j k l = c.
Proof.
  intros Hhost Hin. unfold at4. rewrite Hin, Hhost.
  pose proof (offset_range (dims a) i j k l Hin).
  rewrite lookup_replicate_2 by lia. reflexivity.
Qed.

Lemma fsum_const0 n :
  fadd (f0 : F) f0 = f0 -> fsum n (fun _ => f0 : F) = f0.
Proof.
  intros Hadd. unfold fsum.
  induction (seqZ 0 n) as [|c l IH]; cbn [fold_left].
  - reflexivity.
  - rewrite Hadd. exact IH.
Qed.

Lemma zip_with_replicate_r (f : F -> F -> F) (l : list F) (c d : F) n :
  length l = n -> (forall a, f a c = d) ->
  zip_with f l (replicate n c) = replicate n d.
Proof.
  intros <- Hf. induction l as [|a l IH]; cbn [length replicate zip_with].
  - reflexivity.
  - rewrite Hf, IH. reflexivity.
Qed.
End ConstantArrays.

Lemma wrap32_small z : - 2 ^ 31 <= z < 2 ^ 31 -> wrap32 z = z.
Proof. intros Hz. unfold wrap32. rewrite Z.mod_small by lia. lia. Qed.

(** *** The IEEE special values *)

Lemma float_f0 : (f0 : float) = PrimFloat.zero.
Proof. reflexivity. Qed.

Lemma float_mul_nan (x : float) : PrimFloat.mul x PrimFloat.nan = PrimFloat.nan.
Proof.
  apply Prim2SF_inj. rewrite mul_spec.
  change (Prim2SF PrimFloat.nan) with S754_nan.
  destruct (Prim2SF x); reflexivity.
Qed.

Lemma float_gt_zero_asym (p : float) :
  PrimFloat.ltb PrimFloat.zero p = true -> PrimFloat.ltb p PrimFloat.zero = false.
Proof.
  rewrite !ltb_spec. change (Prim2SF PrimFloat.zero) with (S754_zero false).
  destruct (Prim2SF p) as [s|s| |s m e]; cbn; try discriminate;
    destruct s; cbn; (discriminate || reflexivity).
Qed.

Lemma float_zero_div_pos (y : float) :
  PrimFloat.ltb PrimFloat.zero y = true ->
  PrimFloat.div PrimFloat.zero y = PrimFloat.zero.
Proof.
  rewrite ltb_spec. change (Prim2SF PrimFloat.zero) with (S754_zero false).
  intros Hpos. apply Prim2SF_inj. rewrite div_spec.
  change (Prim2SF PrimFloat.zero) with (S754_zero false).
  destruct (Prim2SF y) as [s|s| |s m e]; cbn in Hpos; try discriminate;
    destruct s; cbn in Hpos; try discriminate; reflexivity.
Qed.

Lemma float_nan_not_zero : PrimFloat.nan <> PrimFloat.zero.
Proof. intros Heq. apply (f_equal Prim2SF) in Heq. discriminate Heq. Qed.

(** With the second of three batch elements dropped, the two kept are scaled
    by 3/2. *)
Example dropPath_one_dropped :
  fst (dropPath dropBlock dropInput
         (MkRng (fun n => if n =? 1 then flit 0 else flit 1) 0))
  = Array (Dim4 2 1 3 1)
          [1.5%float; 3%float; 0%float; 0%float; 7.5%float; 9%float].
Proof. vm_compute. reflexivity. Qed.

Lemma host_tabulate_unit {F} `{Arith F} (f : Z -> Z -> Z -> Z -> F) :
  host (tabulate (Dim4 1 1 1 1) f) = [f 0 0 0 0].
Proof. reflexivity. Qed.

(** With every draw zero and a positive probability, every batch element is
    dropped. *)
Lemma keepMask_all_dropped (self : VisionTransformer float) (x : array float) B :
  fgtb (pLayerdrop_ self) f0 = true ->
  d2 (dims x) = B -> 0 < B < 2 ^ 31 ->
  fst (dropPath_keepMask self x zeroDraws)
  = Array (Dim4 1 1 B 1) (replicate (Z.to_nat B) f0).
Proof.
  intros Hp HB Hrange. unfold dropPath_keepMask. rewrite HB.
  rewrite wrap32_small by lia.
  unfold randu, gtMask, amap. cbn [fst dims host tape zeroDraws].
  f_equal. rewrite map_map.
  rewrite (map_const _ _ f0).
  - rewrite length_seqZ. f_equal. unfold elements. cbn [d0 d1 d2 d3]. lia.
  - intros n _. cbn [fgtb float_Arith] in Hp |- *.
    rewrite float_f0 in Hp |- *.
    rewrite (float_gt_zero_asym _ Hp). reflexivity.
Qed.

Lemma keepRatio_all_dropped (self : VisionTransformer float) (x : array float) B :
  fgtb (pLayerdrop_ self) f0 = true ->
  d2 (dims x) = B -> 0 < B < 2 ^ 31 ->
  fgtb (of_int B : float) f0 = true ->
  dropPath_keepRatio self x zeroDraws = f0.
Proof.
  intros Hp HB Hrange Hpos. unfold dropPath_keepRatio.
  rewrite (keepMask_all_dropped self x B Hp HB Hrange).
  unfold scalar, mean2. cbn [dims d0 d1 d2 d3].
  rewrite host_tabulate_unit. cbn [lookup list_lookup default from_option id].
  rewrite (fsum_ext _ _ (fun _ => f0)).
  - rewrite fsum_const0 by reflexivity.
    cbn [fgtb fdiv float_Arith] in Hpos |- *. rewrite float_f0 in Hpos |- *.
    apply float_zero_div_pos. exact Hpos.
  - intros k Hk. apply at4_const.
    + cbn [dims host]. f_equal. unfold elements. cbn [d0 d1 d2 d3]. lia.
    + apply inb_true. cbn [dims d0 d1 d2 d3]. lia.
Qed.

(** C10.  In training mode with a positive drop-path probability there is a
    state of the random generator, the one whose draws are all zero, for which
    every batch element is dropped: the realised keep ratio is zero, the keep
    mask is divided by it, 0/0, and every element of the result is NaN, not
    zero. *)
Theorem dropPath_all_dropped_is_nan (self : VisionTransformer float)
    (x : array float) C T B :
  train_ self = true ->
  fgtb (pLayerdrop_ self) f0 = true ->
  dims x = Dim4 C T B 1 ->
  0 < C < 2 ^ 31 -> 0 < T < 2 ^ 31 -> 0 < B < 2 ^ 31 ->
  size (host x) = C * T * B ->
  fgtb (of_int B : float) f0 = true ->
  exists g : Rng float,
    host (fst (dropPath_keepMask self x g)) = replicate (Z.to_nat B) f0 /\
    dropPath_keepRatio self x g = f0 /\
    fdiv (f0 : float) f0 = PrimFloat.nan /\
    dims (fst (dropPath self x g)) = dims x /\
    host (fst (dropPath self x g))
    = replicate (Z.to_nat (C * T * B)) PrimFloat.nan /\
    fst (dropPath self x g)
    <> Array (dims x) (replicate (Z.to_nat (C * T * B)) f0).
Proof.
  intros Htrain Hp Hx HC HT HB Hsize Hpos.
  assert (Hd2 : d2 (dims x) = B) by (rewrite Hx; reflexivity).
  pose proof (keepMask_all_dropped self x B Hp Hd2 HB) as Hmask.
  pose proof (keepRatio_all_dropped self x B Hp Hd2 HB Hpos) as Hratio.
  assert (Hhost : host (fst (dropPath self x zeroDraws))
                  = replicate (Z.to_nat (C * T * B)) PrimFloat.nan).
  { unfold dropPath. rewrite Htrain. cbn [negb].
    unfold dropPath_keepRatio in Hratio.
    destruct (dropPath_keepMask self x zeroDraws) as [keepMask g'].
    cbn [fst] in Hmask, Hratio. rewrite Hratio. subst keepMask.
    cbn [fst azip host]. rewrite Hx. cbn [d0 d1].
    rewrite !wrap32_small by lia.
    unfold tile.
    rewrite (host_tabulate_const _ _ PrimFloat.nan).
    - cbn [amap dims d0 d1 d2 d3]. unfold elements. cbn [d0 d1 d2 d3].
      replace (1 * C * (1 * T) * B * 1) with (C * T * B) by ring.
      apply zip_with_replicate_r.
      + unfold size in Hsize. lia.
      + intros a. apply float_mul_nan.
    - cbn [amap dims d0]. lia.
    - cbn [amap dims d1]. lia.
    - cbn [amap dims d2]. lia.
    - cbn [amap dims d3]. lia.
    - intros i j k l Hin. apply inb_true in Hin.
      cbn [amap dims d0 d1 d2 d3] in Hin.
      apply at4_const.
      + cbn [amap dims host]. change (map ?f ?l) with (f <$> l).
        rewrite fmap_replicate. f_equal. unfold elements.
        cbn [d0 d1 d2 d3]. lia.
      + apply inb_true. cbn [amap dims d0 d1 d2 d3].
        rewrite !Z.mod_1_r. lia. }
  exists zeroDraws. repeat split.
  - rewrite Hmask. reflexivity.
  - exact Hratio.
  - unfold dropPath. rewrite Htrain. cbn [negb].
    destruct (dropPath_keepMask self x zeroDraws) as [keepMask g'].
    reflexivity.
  - exact Hhost.
  - intros Heq. apply (f_equal host) in Heq. rewrite Hhost in Heq.
    cbn [host] in Heq.
    destruct (Z.to_nat (C * T * B)) as [|n] eqn:Hn; [ nia | ].
    cbn [replicate] in Heq.
    apply (f_equal (fun l => match l with
                             | a :: _ => a
                             | [] => PrimFloat.zero
                             end)) in Heq.
    apply float_nan_not_zero. exact Heq.
Qed.

Lemma dropPath_all_dropped_is_nan_witness :
  exists g : Rng float,
    dropPath_keepRatio dropBlock dropInput g = f0 /\
    host (fst (dropPath dropBlock dropInput g)) = replicate 6 PrimFloat.nan.
Proof.
  destruct (dropPath_all_dropped_is_nan dropBlock dropInput 2 1 3)
    as (g & _ & Hratio & _ & _ & Hhost & _);
    [ reflexivity | reflexivity | reflexivity | lia | lia | lia
    | reflexivity | reflexivity | ].
  exists g. split; [ exact Hratio | exact Hhost ].
Defined.

(** ** Construction from a configuration *)

(** C4, on the code.  In a block built from a configuration each of [w1],
    [w2], [wq], [wk] and [wv] has a weight of shape (out x in) and a zero bias
    as long as its output dimension.  The output projection [wf] has a weight
    of shape (modelDim x headDim*nHeads) and a zero bias of length
    headDim*nHeads, its input dimension: with modelDim 8, headDim 2 and
    nHeads 2 the bias has 4 elements for 8 outputs. *)
Theorem new_linear_shapes :
  (forall F (HA : Arith F) (truncNormalOf : F -> F -> F)
          modelDim headDim mlpDim nHeads (pDropout pLayerdrop : F) g,
     let blk := fst (VisionTransformer_new truncNormalOf modelDim headDim mlpDim
                       nHeads pDropout pLayerdrop g) in
     let inner := mul32 headDim nHeads in
     (dims (weight (w1_ blk)) = Dim4 mlpDim modelDim 1 1 /\
      bias (w1_ blk) = constant (flit 0) mlpDim 1) /\
     (dims (weight (w2_ blk)) = Dim4 modelDim mlpDim 1 1 /\
      bias (w2_ blk) = constant (flit 0) modelDim 1) /\
     (dims (weight (wq_ blk)) = Dim4 inner modelDim 1 1 /\
      bias (wq_ blk) = constant (flit 0) inner 1) /\
     (dims (weight (wk_ blk)) = Dim4 inner modelDim 1 1 /\
      bias (wk_ blk) = constant (flit 0) inner 1) /\
     (dims (weight (wv_ blk)) = Dim4 inner modelDim 1 1 /\
      bias (wv_ blk) = constant (flit 0) inner 1) /\
     (dims (weight (wf_ blk)) = Dim4 modelDim inner 1 1 /\
      bias (wf_ blk) = constant (flit 0) inner 1)) /\
  (let blk := fst (VisionTransformer_new (F:=float) PrimFloat.mul 8 2 16 2
                     (flit 0) (flit 0) zeroDraws) in
   d0 (dims (weight (wf_ blk))) = 8 /\
   dims (bias (wf_ blk)) = Dim4 4 1 1 1 /\
   host (bias (wf_ blk)) = replicate 4 f0).
Proof.
  split.
  - intros F HA truncNormalOf modelDim headDim mlpDim nHeads pDropout pLayerdrop g.
    cbv zeta. unfold VisionTransformer_new, initLinear, truncNormal, randu.
    cbn [fst snd addAll add w1_ w2_ wq_ wk_ wv_ wf_ weight bias dims amap].
    repeat split.
  - cbv zeta. vm_compute. repeat split.
Qed.

(** * Further properties of the code *)

(** ** [readfloats] *)

Lemma le32_four (b0 b1 b2 b3 : byte) :
  le32 [b0; b1; b2; b3]
  = Z.of_N (Byte.to_N b0) + 256 * Z.of_N (Byte.to_N b1)
    + 65536 * Z.of_N (Byte.to_N b2) + 16777216 * Z.of_N (Byte.to_N b3).
Proof. unfold le32. cbn [foldr]. lia. Qed.

(** X1.  For a file that can be opened, [readfloats] writes nothing to
    [std::cout] and returns as many floats as the file has whole groups of
    four bytes; float [i] is the one whose bit pattern is bytes [4i .. 4i+3]
    read least significant first.  Bytes after the last whole group are not
    looked at. *)
Theorem readfloats_decodes {F} `{Arith F} (fs : gmap string (list byte))
    (p : string) (fin : list byte) (out : list string) :
  fs !! p = Some fin ->
  readfloats (F:=F) fs p out = (inr (floatsOf fs p), out) /\
  size (floatsOf (F:=F) fs p) = Z.of_nat (length fin) / 4 /\
  (forall i b0 b1 b2 b3,
     fin !! (4 * i)%nat = Some b0 -> fin !! (4 * i + 1)%nat = Some b1 ->
     fin !! (4 * i + 2)%nat = Some b2 -> fin !! (4 * i + 3)%nat = Some b3 ->
     floatsOf (F:=F) fs p !! i
     = Some (of_bits (Z.of_N (Byte.to_N b0) + 256 * Z.of_N (Byte.to_N b1)
                      + 65536 * Z.of_N (Byte.to_N b2)
                      + 16777216 * Z.of_N (Byte.to_N b3)))) /\
  (forall extra,
     (length fin mod 4 + length extra < 4)%nat ->
     floatsOf (F:=F) (<[p := fin ++ extra]> fs) p = floatsOf (F:=F) fs p).
Proof.
  intros Hfile.
  assert (Hfloats : forall (fs' : gmap string (list byte)) fin',
            fs' !! p = Some fin' ->
            floatsOf (F:=F) fs' p
            = map (fun i => of_bits (le32 (take 4 (drop (4 * i) fin'))))
                  (seq 0 (length fin' / 4))).
  { intros fs' fin' Hfin'. unfold floatsOf, readfloats. rewrite Hfin'.
    reflexivity. }
  split; [ | split; [ | split ] ].
  - rewrite readfloats_eq. unfold coutOf, readfloats. rewrite Hfile.
    cbn [snd ret]. rewrite app_nil_r. reflexivity.
  - rewrite size_floatsOf, Hfile. reflexivity.
  - intros i b0 b1 b2 b3 H0 H1 H2 H3.
    rewrite (Hfloats fs fin Hfile).
    change (map ?g ?xs) with (g <$> xs).
    rewrite list_lookup_fmap.
    assert (Hlen : (4 * i + 3 < length fin)%nat)
      by (apply lookup_lt_is_Some; eexists; exact H3).
    assert (Hi : (i < length fin / 4)%nat)
      by (apply Nat.div_le_lower_bound; lia).
    rewrite lookup_seq_lt by exact Hi. cbn [fmap option_fmap option_map].
    rewrite Nat.add_0_l.
    rewrite (take4_drop fin (4 * i) b0 b1 b2 b3 H0 H1 H2 H3).
    rewrite le32_four. reflexivity.
  - intros extra Hextra.
    rewrite (Hfloats (<[p := fin ++ extra]> fs) (fin ++ extra))
      by apply lookup_insert_eq.
    rewrite (Hfloats fs fin Hfile).
    assert (Hdiv : (length (fin ++ extra) / 4 = length fin / 4)%nat).
    { rewrite length_app.
      pose proof (Nat.div_mod_eq (length fin) 4) as Hdm.
      symmetry. apply (Nat.div_unique _ 4 _ (length fin mod 4 + length extra)); lia. }
    rewrite Hdiv. apply map_ext_in. intros i Hi. apply in_seq in Hi.
    f_equal. f_equal.
    rewrite drop_app_le by (pose proof (Nat.div_mod_eq (length fin) 4); lia).
    rewrite take_app_le; [ reflexivity | ].
    rewrite length_drop. pose proof (Nat.div_mod_eq (length fin) 4). lia.
Qed.

Lemma readfloats_decodes_witness :
  floatsOf (F:=float) {[ "f" := [x00; x00; x80; x3f; xff] ]} "f" !! 0%nat
  = Some 1%float /\
  size (floatsOf (F:=float) {[ "f" := [x00; x00; x80; x3f; xff] ]} "f") = 1.
Proof.
  assert (Hfile : ({[ "f" := [x00; x00; x80; x3f; xff] ]}
                    : gmap string (list byte)) !! "f"
                  = Some [x00; x00; x80; x3f; xff])
    by (vm_compute; reflexivity).
  destruct (readfloats_decodes (F:=float)
              {[ "f" := [x00; x00; x80; x3f; xff] ]} "f"
              [x00; x00; x80; x3f; xff] [] Hfile)
    as (_ & Hsize & Hdec & _).
  split; [ | exact Hsize ].
  exact (Hdec 0%nat x00 x00 x80 x3f eq_refl eq_refl eq_refl eq_refl).
Defined.

(** ** The checkpoint constructor *)

Lemma firstBad_None_iff {F} `{Arith F} fs prefix :
  firstBad (F:=F) fs prefix = None <->
  forall e, In e checkpointFiles ->
            size (floatsOf (F:=F) fs (prefix +:+ fst e)) = snd e.
Proof.
  split.
  - intros Hnone e Hin. apply firstBad_None_sizes; assumption.
  - intros Hall. unfold firstBad.
    destruct (find _ checkpointFiles) as [e|] eqn:Hfind; [ | reflexivity ].
    apply find_some in Hfind. destruct Hfind as [Hin Hbad].
    apply sizeOk_false in Hbad. exfalso. apply Hbad. apply Hall. exact Hin.
Qed.

(** X2.  Loading a checkpoint succeeds exactly when each of the twelve files
    has the element count expected of it. *)
Theorem load_succeeds_iff {F} `{Arith F} (fs : gmap string (list byte))
    (prefix : string) (out : list string) :
  (exists blk out',
     VisionTransformer_load (F:=F) fs prefix out = (inr blk, out'))
  <-> (forall e, In e checkpointFiles ->
                 size (floatsOf (F:=F) fs (prefix +:+ fst e)) = snd e).
Proof.
  rewrite <- firstBad_None_iff. split.
  - intros (blk & out' & Hload). apply (load_inv _ _ _ _ _ Hload).
  - intros Hnone.
    destruct (load_noBad fs prefix out Hnone) as [blk Hblk].
    exists blk, (snd (VisionTransformer_load (F:=F) fs prefix out)).
    rewrite <- Hblk. apply surjective_pairing.
Qed.

Lemma coutOf_eq {F} `{Arith F} (fs : gmap string (list byte)) p :
  coutOf (F:=F) fs p
  = match fs !! p with
    | Some _ => []
    | None => [" Error, Couldn't find the file" +:+ newline]
    end.
Proof. unfold coutOf, readfloats. destruct (fs !! p); reflexivity. Qed.

Lemma coutOf_sized {F} `{Arith F} (fs : gmap string (list byte)) p n :
  (size (floatsOf (F:=F) fs p) =? n) = true -> 0 < n ->
  coutOf (F:=F) fs p = [].
Proof.
  intros Hsize Hn. apply Z.eqb_eq in Hsize.
  rewrite size_floatsOf in Hsize. rewrite coutOf_eq.
  destruct (fs !! p); [ reflexivity | lia ].
Qed.

(** X3.  What loading writes to [std::cout]: nothing when it succeeds, nothing
    when the first malformed file exists with a wrong size, and the one line
    of [readfloats] when the first malformed file cannot be opened. *)
Theorem load_cout {F} `{Arith F} (fs : gmap string (list byte))
    (prefix : string) (out : list string) :
  snd (VisionTransformer_load (F:=F) fs prefix out)
  = match firstBad (F:=F) fs prefix with
    | None => out
    | Some e =>
        match fs !! (prefix +:+ fst e) with
        | Some _ => out
        | None => out ++ [" Error, Couldn't find the file" +:+ newline]
        end
    end.
Proof.
  unfold firstBad, checkpointFiles, sizeOk. cbn [find fst snd].
  unfold VisionTransformer_load.
  repeat (rewrite bind_readfloats; cbv beta zeta;
          rewrite bind_expectSize; cbv beta zeta;
          match goal with
          | |- context [size (floatsOf fs ?p) =? ?n] =>
              let Hsz := fresh "Hsz" in
              destruct (size (floatsOf fs p) =? n) eqn:Hsz; cbn [negb];
              [ rewrite (coutOf_sized fs p n Hsz) by lia;
                rewrite app_nil_r
              | cbn [snd fst]; rewrite coutOf_eq;
                destruct (fs !! p);
                [ rewrite app_nil_r; reflexivity | reflexivity ] ]
          end).
  reflexivity.
Qed.

(** X4.  Loading depends on the twelve files of the checkpoint only: two file
    systems that agree on them give the same result and the same output. *)
Theorem load_reads_only_checkpoint_files {F} `{Arith F}
    (fs fs' : gmap string (list byte)) (prefix : string) (out : list string) :
  (forall e, In e checkpointFiles ->
             fs !! (prefix +:+ fst e) = fs' !! (prefix +:+ fst e)) ->
  VisionTransformer_load (F:=F) fs prefix out
  = VisionTransformer_load (F:=F) fs' prefix out.
Proof.
  intros Hagree.
  assert (Hread : forall suffix, In suffix (map fst checkpointFiles) ->
            readfloats (F:=F) fs (prefix +:+ suffix)
            = readfloats (F:=F) fs' (prefix +:+ suffix)).
  { intros suffix Hin. apply in_map_iff in Hin.
    destruct Hin as (e & <- & Hin).
    unfold readfloats. rewrite (Hagree e Hin). reflexivity. }
  unfold VisionTransformer_load.
  repeat match goal with
         | |- context [readfloats fs (prefix +:+ ?suffix)] =>
             rewrite (Hread suffix) by (cbn; tauto)
         end.
  reflexivity.
Qed.

Lemma load_reads_only_checkpoint_files_witness :
  VisionTransformer_load (F:=float) fs0 "ckpt" []
  = VisionTransformer_load (F:=float) (<["ckpt.readme" := [xff]]> fs0) "ckpt" [].
Proof.
  apply load_reads_only_checkpoint_files.
  intros e Hin. symmetry. apply lookup_insert_ne.
  unfold checkpointFiles in Hin. cbn [In] in Hin.
  repeat (destruct Hin as [<- | Hin];
          [ intros Heq; vm_compute in Heq; discriminate Heq | ]).
  contradiction.
Defined.

Lemma wellFormed_tabulate {F} `{Arith F} d (f : Z -> Z -> Z -> Z -> F) :
  wellFormed (tabulate d f).
Proof.
  unfold wellFormed, tabulate. cbn [host dims].
  rewrite length_map. apply length_seqZ.
Qed.

Lemma wellFormed_array2 {F} `{Arith F} n m (ptr : list F) :
  size ptr = n * m -> wellFormed (array2 n m ptr).
Proof.
  intros Hsize. unfold wellFormed, array2, size, elements in *.
  cbn [host dims d0 d1 d2 d3]. rewrite length_take. lia.
Qed.

Lemma wellFormed_array1 {F} `{Arith F} n (ptr : list F) :
  size ptr = n -> wellFormed (array1 n ptr).
Proof.
  intros Hsize. unfold wellFormed, array1, size, elements in *.
  cbn [host dims d0 d1 d2 d3]. rewrite length_take. lia.
Qed.

(** Runs the constructor through its twelve size checks; [tac] closes the
    cases in which one fails. *)
Ltac load_cases tac :=
  unfold VisionTransformer_load;
  repeat (rewrite bind_readfloats; cbv beta zeta;
          rewrite bind_expectSize; cbv beta zeta;
          destruct (size (floatsOf _ _) =? _);
          cbn [negb]; [ | tac ]).

(** The parts of a loaded block that [load_inv] leaves out. *)
Lemma load_inv_rest {F} `{Arith F} fs prefix out (blk : VisionTransformer F) out' :
  VisionTransformer_load (F:=F) fs prefix out = (inr blk, out') ->
  (modelDim_ blk = 768 /\ headDim_ blk = 64 /\ mlpDim_ blk = 3072 /\
   nHeads_ blk = 12) /\
  modules_ blk = children blk /\
  w1_ blk = MkLinear (array2 3072 768 (floatsOf fs (prefix +:+ ".mlp.fc1.weight.bin")))
                     (array1 3072 (floatsOf fs (prefix +:+ ".mlp.fc1.bias.bin"))) /\
  w2_ blk = MkLinear (array2 768 3072 (floatsOf fs (prefix +:+ ".mlp.fc2.weight.bin")))
                     (array1 768 (floatsOf fs (prefix +:+ ".mlp.fc2.bias.bin"))) /\
  wf_ blk = MkLinear (array2 768 768 (floatsOf fs (prefix +:+ ".attn.proj.weight.bin")))
                     (array1 768 (floatsOf fs (prefix +:+ ".attn.proj.bias.bin"))) /\
  norm1_ blk = MkLayerNorm [0] (flit (1 # 1000000)) true 768
                 (array1 768 (floatsOf fs (prefix +:+ ".norm1.weight.bin")))
                 (array1 768 (floatsOf fs (prefix +:+ ".norm1.bias.bin"))) /\
  norm2_ blk = MkLayerNorm [0] (flit (1 # 1000000)) true 768
                 (array1 768 (floatsOf fs (prefix +:+ ".norm2.weight.bin")))
                 (array1 768 (floatsOf fs (prefix +:+ ".norm2.bias.bin"))).
Proof.
  load_cases ltac:(discriminate).
  unfold ret. intros [= <- _]. unfold noGrad. repeat split.
Qed.

(** X5.  A loaded block has the fixed architecture: model dimension 768, 12
    heads of dimension 64 (so that headDim * nHeads = modelDim) and an MLP of
    width 3072; its six projections have the shapes 3072 x 768, 768 x 3072 and
    four times 768 x 768 with biases as long as their outputs, its two
    normalisations are over axis 0 with scale and shift of length 768; every
    tensor has as many elements as its shape says; and its registered
    children are its eight sub-modules in the order of the calls to [add]. *)
Theorem load_architecture {F} `{Arith F} (fs : gmap string (list byte))
    (prefix : string) (out : list string) (blk : VisionTransformer F)
    (out' : list string) :
  VisionTransformer_load (F:=F) fs prefix out = (inr blk, out') ->
  (modelDim_ blk = 768 /\ headDim_ blk = 64 /\ mlpDim_ blk = 3072 /\
   nHeads_ blk = 12 /\ headDim_ blk * nHeads_ blk = modelDim_ blk) /\
  map dims (parameters blk)
  = [ Dim4 3072 768 1 1; Dim4 3072 1 1 1; Dim4 768 3072 1 1; Dim4 768 1 1 1;
      Dim4 768 768 1 1; Dim4 768 1 1 1; Dim4 768 768 1 1; Dim4 768 1 1 1;
      Dim4 768 768 1 1; Dim4 768 1 1 1; Dim4 768 768 1 1; Dim4 768 1 1 1;
      Dim4 768 1 1 1; Dim4 768 1 1 1; Dim4 768 1 1 1; Dim4 768 1 1 1 ] /\
  Forall wellFormed (parameters blk) /\
  (axes (norm1_ blk) = [0] /\ axes (norm2_ blk) = [0] /\
   affine (norm1_ blk) = true /\ affine (norm2_ blk) = true) /\
  modules_ blk = children blk.
Proof.
  intros Hload.
  destruct (load_inv _ _ _ _ _ Hload) as (Hnone & _ & _ & _ & Hq & Hk & Hv).
  destruct (load_inv_rest _ _ _ _ _ Hload)
    as ((Hm & Hh & Hmlp & Hn) & Hchildren & H1 & H2 & Hf & Hn1 & Hn2).
  cbv zeta in Hq, Hk, Hv.
  pose proof (fun e Hin => firstBad_None_sizes fs prefix e Hnone Hin) as Hsizes.
  unfold parameters.
  rewrite H1, H2, Hq, Hk, Hv, Hf, Hn1, Hn2. cbn [weight bias ln_weight ln_bias axes affine].
  split; [ rewrite Hm, Hh, Hn; repeat split; assumption | ].
  split; [ reflexivity | ].
  split; [ | repeat split; assumption ].
  assert (Hsized : forall suffix n, In (suffix, n) checkpointFiles ->
            size (floatsOf (F:=F) fs (prefix +:+ suffix)) = n)
    by (intros suffix n Hin; apply (Hsizes (suffix, n) Hin)).
  repeat (apply Forall_cons; split);
    first [ apply List.Forall_nil
          | apply wellFormed_array2; apply Hsized; cbn; tauto
          | apply wellFormed_array1; apply Hsized; cbn; tauto
          | unfold rows; apply wellFormed_tabulate ].
Qed.

Lemma load_architecture_witness :
  exists blk out',
    VisionTransformer_load (F:=float) fs0 "ckpt" [] = (inr blk, out') /\
    headDim_ blk * nHeads_ blk = modelDim_ blk /\
    Forall wellFormed (parameters blk) /\
    modules_ blk = children blk.
Proof.
  destruct (load_fs0 (F:=float)) as (blk & out' & Hload).
  exists blk, out'. split; [ exact Hload | ].
  destruct (load_architecture fs0 "ckpt" [] blk out' Hload)
    as ((_ & _ & _ & _ & Hinv) & _ & Hwf & _ & Hch).
  split; [ exact Hinv | split; [ exact Hwf | exact Hch ] ].
Defined.

(** ** Arrays with as many elements as their shape says *)

Lemma wellFormed_randu {F} d (g : Rng F) : wellFormed (fst (randu d g)).
Proof.
  unfold wellFormed, randu. cbn [fst host dims].
  rewrite length_map. apply length_seqZ.
Qed.

Lemma wellFormed_amap {F} `{Arith F} (f : F -> F) (a : array F) :
  wellFormed a -> wellFormed (amap f a).
Proof.
  unfold wellFormed, amap. cbn [host dims]. rewrite length_map. auto.
Qed.

(** ** Elements of composed arrays *)

Section ElementFacts.
Context {F : Type} `{Arith F}.

Lemma lookup_wellFormed (a : array F) i j k l :
  wellFormed a -> inb (dims a) i j k l = true ->
  host a !! Z.to_nat (offset (dims a) i j k l) = Some (at4 a i j k l).
Proof.
  intros Hwf Hin. unfold at4. rewrite Hin.
  pose proof (offset_range (dims a) i j k l Hin) as Hoff.
  destruct (host a !! Z.to_nat (offset (dims a) i j k l)) as [e|] eqn:He.
  - reflexivity.
  - apply lookup_ge_None in He. unfold wellFormed in Hwf. lia.
Qed.

Lemma at4_amap (f : F -> F) (a : array F) i j k l :
  wellFormed a -> inb (dims a) i j k l = true ->
  at4 (amap f a) i j k l = f (at4 a i j k l).
Proof.
  intros Hwf Hin. unfold at4 at 1. cbn [amap dims host]. rewrite Hin.
  change (map ?g ?xs) with (g <$> xs).
  rewrite list_lookup_fmap, (lookup_wellFormed a i j k l Hwf Hin).
  reflexivity.
Qed.

Lemma at4_azip (f : F -> F -> F) (a b : array F) i j k l :
  dims b = dims a -> wellFormed a -> wellFormed b ->
  inb (dims a) i j k l = true ->
  at4 (azip f a b) i j k l = f (at4 a i j k l) (at4 b i j k l).
Proof.
  intros Hdims Hwa Hwb Hin. unfold at4 at 1. cbn [azip dims host]. rewrite Hin.
  rewrite lookup_zip_with.
  rewrite (lookup_wellFormed a i j k l Hwa Hin).
  pose proof (lookup_wellFormed b i j k l Hwb) as Hb.
  rewrite Hdims in Hb. rewrite (Hb Hin). reflexivity.
Qed.

Lemma wellFormed_azip (f : F -> F -> F) (a b : array F) :
  dims b = dims a -> wellFormed a -> wellFormed b -> wellFormed (azip f a b).
Proof.
  unfold wellFormed, azip. cbn [dims host]. intros Hdims Hwa Hwb.
  rewrite length_zip_with, Hwa, Hwb, Hdims. lia.
Qed.

(** The draws of [randu], element by element. *)
Lemma at4_randu d (g : Rng F) i j k l :
  inb d i j k l = true ->
  at4 (fst (randu d g)) i j k l = tape g (cursor g + offset d i j k l).
Proof.
  intros Hin. unfold at4, randu. cbn [fst dims host]. rewrite Hin.
  pose proof (offset_range d i j k l Hin) as Hoff.
  change (map ?h ?xs) with (h <$> xs).
  rewrite list_lookup_fmap, lookup_seqZ_lt by lia.
  cbn. rewrite Z2Nat.id by lia. reflexivity.
Qed.

(** The keep mask of [dropPath], element by element. *)
Lemma at4_keepMask (self : VisionTransformer F) (x : array F) g B k :
  d2 (dims x) = B -> 0 < B < 2 ^ 31 -> 0 <= k < B ->
  dims (fst (dropPath_keepMask self x g)) = Dim4 1 1 B 1 /\
  wellFormed (fst (dropPath_keepMask self x g)) /\
  snd (dropPath_keepMask self x g) = MkRng (tape g) (cursor g + B) /\
  at4 (fst (dropPath_keepMask self x g)) 0 0 k 0
  = (if fgtb (tape g (cursor g + k)) (pLayerdrop_ self) then f1 else f0).
Proof.
  intros HB Hrange Hk. unfold dropPath_keepMask. rewrite HB.
  rewrite wrap32_small by lia.
  change (let '(u, g0) := randu (Dim4 1 1 B 1) g in
          (gtMask u (pLayerdrop_ self), g0))
    with (gtMask (fst (randu (Dim4 1 1 B 1) g)) (pLayerdrop_ self),
          snd (randu (Dim4 1 1 B 1) g)).
  cbn [fst snd].
  assert (Hin : inb (Dim4 1 1 B 1) 0 0 k 0 = true)
    by (apply inb_true; cbn [d0 d1 d2 d3]; lia).
  split; [ reflexivity | ]. split; [ | split ].
  - unfold gtMask. apply wellFormed_amap. apply wellFormed_randu.
  - unfold randu. cbn [snd]. f_equal. unfold elements. cbn [d0 d1 d2 d3]. lia.
  - unfold gtMask. rewrite at4_amap; [ | apply wellFormed_randu | exact Hin ].
    rewrite at4_randu by exact Hin. unfold offset. cbn [d0 d1 d2 d3].
    replace (0 + 1 * (0 + 1 * (k + B * 0))) with k by lia. reflexivity.
Qed.

(** The realised keep ratio: the mean of the mask. *)
Lemma keepRatio_eq (self : VisionTransformer F) (x : array F) g B :
  d2 (dims x) = B -> 0 < B < 2 ^ 31 ->
  dropPath_keepRatio self x g
  = fdiv (fsum B (fun k => if fgtb (tape g (cursor g + k)) (pLayerdrop_ self)
                           then f1 else f0))
         (of_int B).
Proof.
  intros HB Hrange. unfold dropPath_keepRatio, scalar, mean2.
  destruct (at4_keepMask self x g B 0 HB Hrange ltac:(lia)) as (Hdims & _).
  rewrite Hdims. cbn [d0 d1 d2 d3]. rewrite host_tabulate_unit.
  change (default f0 ([?e] !! 0%nat)) with e. f_equal.
  apply fsum_ext. intros k Hk.
  apply (at4_keepMask self x g B k HB Hrange Hk).
Qed.

(** [dropPath] in training mode, element by element. *)
Lemma dropPath_elements (self : VisionTransformer F) (x : array F) g C T B :
  train_ self = true -> dims x = Dim4 C T B 1 -> wellFormed x ->
  0 < C < 2 ^ 31 -> 0 < T < 2 ^ 31 -> 0 < B < 2 ^ 31 ->
  snd (dropPath self x g) = MkRng (tape g) (cursor g + B) /\
  dims (fst (dropPath self x g)) = dims x /\
  wellFormed (fst (dropPath self x g)) /\
  forall i j k, 0 <= i < C -> 0 <= j < T -> 0 <= k < B ->
    at4 (fst (dropPath self x g)) i j k 0
    = fmul (at4 x i j k 0)
           (fdiv (if fgtb (tape g (cursor g + k)) (pLayerdrop_ self)
                  then f1 else f0)
                 (dropPath_keepRatio self x g)).
Proof.
  intros Htrain Hx Hwf HC HT HB.
  assert (Hd2 : d2 (dims x) = B) by (rewrite Hx; reflexivity).
  pose proof (fun k Hk => at4_keepMask self x g B k Hd2 HB Hk) as Hmask.
  destruct (Hmask 0 ltac:(lia)) as (Hmdims & Hmwf & Hrng & _).
  unfold dropPath. rewrite Htrain. cbn [negb].
  unfold dropPath_keepRatio in *.
  destruct (dropPath_keepMask self x g) as [keepMask g'].
  cbn [fst snd] in *.
  replace (d0 (dims x)) with C by (rewrite Hx; reflexivity).
  replace (d1 (dims x)) with T by (rewrite Hx; reflexivity).
  rewrite !wrap32_small by lia.
  set (ratio := scalar (mean2 keepMask)).
  set (scaled := amap (fun e => fdiv e ratio) keepMask).
  assert (Hsdims : dims scaled = Dim4 1 1 B 1) by exact Hmdims.
  assert (Hswf : wellFormed scaled) by (apply wellFormed_amap; exact Hmwf).
  assert (Htdims : dims (tile scaled C T) = Dim4 C T B 1).
  { unfold tile. cbn [tabulate dims]. rewrite Hsdims. cbn [d0 d1 d2 d3].
    f_equal; lia. }
  assert (Htwf : wellFormed (tile scaled C T))
    by (unfold tile; apply wellFormed_tabulate).
  split; [ exact Hrng | ]. split; [ reflexivity | ]. split.
  - apply wellFormed_azip; [ rewrite Htdims, Hx; reflexivity | assumption.. ].
  - intros i j k Hi Hj Hk.
    assert (Hin : inb (dims x) i j k 0 = true)
      by (apply inb_true; rewrite Hx; cbn [d0 d1 d2 d3]; lia).
    rewrite at4_azip;
      [ | rewrite Htdims, Hx; reflexivity | assumption.. ].
    f_equal. unfold tile.
    rewrite at4_tabulate
      by (apply inb_true; rewrite Hsdims; cbn [d0 d1 d2 d3]; lia).
    rewrite Hsdims. cbn [d0 d1]. rewrite !Z.mod_1_r.
    unfold scaled. rewrite at4_amap;
      [ | exact Hmwf
        | apply inb_true; rewrite Hmdims; cbn [d0 d1 d2 d3]; lia ].
    f_equal. apply (Hmask k Hk).
Qed.
End ElementFacts.

(** ** Attention scores and weights, element by element *)

Lemma at4_matmulNT {F} `{Arith F} (a b : array F) i j k l :
  inb (Dim4 (d0 (dims a)) (d0 (dims b)) (d2 (dims a)) (d3 (dims a))) i j k l
  = true ->
  at4 (matmulNT a b) i j k l
  = fsum (d1 (dims a)) (fun c => fmul (at4 a i c k l) (at4 b j c k l)).
Proof. intros Hin. unfold matmulNT. rewrite at4_tabulate by exact Hin. reflexivity. Qed.

Lemma wellFormed_heads {F} `{Arith F} (m : Linear F) (x : array F) hd nH C T B :
  dims x = Dim4 C T B 1 -> 0 < hd -> 0 < nH -> 0 < B -> 0 <= T ->
  d0 (dims (weight m)) = hd * nH ->
  wellFormed (moddims (transpose (Linear_forward m x))
                      (Dim4 (-1) hd (nH * B) 1)).
Proof.
  intros Hx Hhd HnH HB HT Hw. unfold wellFormed.
  rewrite (dims_heads m x hd nH C T B Hx Hhd HnH HB HT Hw).
  unfold moddims. cbn [host].
  rewrite (wellFormed_tabulate _ _ : wellFormed (transpose (Linear_forward m x))).
  unfold transpose, Linear_forward. cbn [dims tabulate d0 d1 d2 d3].
  rewrite Hx, Hw. unfold elements. cbn [d0 d1 d2 d3]. f_equal. ring.
Qed.

(** Reshaping a projection to one slice per head and batch element
    reinterprets its buffer: slice [s] holds the [hd] features of head
    [s mod nH] of batch element [s / nH], one row per sequence position. *)
Lemma at4_heads {F} `{Arith F} (m : Linear F) (x : array F) hd nH C T B t c s :
  dims x = Dim4 C T B 1 -> 0 < hd -> 0 < nH -> 0 < B ->
  d0 (dims (weight m)) = hd * nH ->
  0 <= t < T -> 0 <= c < hd -> 0 <= s < nH * B ->
  at4 (moddims (transpose (Linear_forward m x)) (Dim4 (-1) hd (nH * B) 1))
      t c s 0
  = at4 (Linear_forward m x) (c + hd * (s mod nH)) t (s / nH) 0.
Proof.
  intros Hx Hhd HnH HB Hw Ht Hc Hs.
  pose proof (dims_heads m x hd nH C T B Hx Hhd HnH HB ltac:(lia) Hw) as Hd.
  pose proof (Z.mod_pos_bound s nH HnH) as Hmod.
  pose proof (Z.div_mod s nH ltac:(lia)) as Hdm.
  assert (Hdiv : 0 <= s / nH < B).
  { split; [ apply Z.div_pos; lia | apply Z.div_lt_upper_bound; lia ]. }
  assert (Hy : dims (Linear_forward m x) = Dim4 (hd * nH) T B 1).
  { unfold Linear_forward. cbn [dims tabulate]. rewrite Hx, Hw. reflexivity. }
  assert (Hin : inb (Dim4 T (hd * nH) B 1) t (c + hd * (s mod nH)) (s / nH) 0
                = true)
    by (apply inb_true; cbn [d0 d1 d2 d3]; nia).
  unfold at4 at 1. rewrite Hd.
  replace (inb (Dim4 T hd (nH * B) 1) t c s 0) with true
    by (symmetry; apply inb_true; cbn [d0 d1 d2 d3]; lia).
  unfold moddims. cbn [host]. unfold transpose. rewrite Hy. cbn [d0 d1 d2 d3].
  replace (offset (Dim4 T hd (nH * B) 1) t c s 0)
    with (offset (Dim4 T (hd * nH) B 1) t (c + hd * (s mod nH)) (s / nH) 0).
  - rewrite lookup_tabulate by (apply offset_range; exact Hin).
    rewrite coords_offset by exact Hin. reflexivity.
  - unfold offset. cbn [d0 d1 d2 d3].
    set (q := s / nH) in *. set (r := s mod nH) in *. clearbody q r.
    subst s. ring.
Qed.

(** The score of query position [i] against key position [j] in slice [s]:
    the product of the scaled query features of position [i] with the key
    features of position [j], over the features of the slice's head. *)
Lemma scores_elements {F} `{Elementary F} (self : VisionTransformer F)
    (x : array F) C T B i j s :
  dims x = Dim4 C T B 1 ->
  0 < headDim_ self -> 0 < nHeads_ self -> 0 < B ->
  d0 (dims (weight (wq_ self))) = headDim_ self * nHeads_ self ->
  d0 (dims (weight (wk_ self))) = headDim_ self * nHeads_ self ->
  0 <= i < T -> 0 <= j < T -> 0 <= s < nHeads_ self * B ->
  at4 (selfAttention_scores self x) i j s 0
  = fsum (headDim_ self)
      (fun c =>
         fmul (fdiv (at4 (Linear_forward (wq_ self) x)
                         (c + headDim_ self * (s mod nHeads_ self)) i
                         (s / nHeads_ self) 0)
                    (fsqrt (of_int (headDim_ self))))
              (at4 (Linear_forward (wk_ self) x)
                   (c + headDim_ self * (s mod nHeads_ self)) j
                   (s / nHeads_ self) 0)).
Proof.
  intros Hx Hhd HnH HB Hq Hk Hi Hj Hs.
  pose proof (dims_heads (wq_ self) x _ _ C T B Hx Hhd HnH HB ltac:(lia) Hq)
    as HdQ.
  pose proof (dims_heads (wk_ self) x _ _ C T B Hx Hhd HnH HB ltac:(lia) Hk)
    as HdK.
  pose proof (wellFormed_heads (wq_ self) x _ _ C T B Hx Hhd HnH HB
                ltac:(lia) Hq) as HwQ.
  unfold selfAttention_scores, selfAttention_qkv. rewrite Hx. cbn [d2].
  cbv beta iota zeta.
  rewrite at4_matmulNT
    by (cbn [amap dims]; rewrite HdQ, HdK; apply inb_true;
        cbn [d0 d1 d2 d3]; lia).
  cbn [amap dims]. rewrite HdQ. cbn [d1].
  apply fsum_ext. intros c Hc.
  match goal with
  | |- fmul (at4 ?a _ _ _ _) _ = _ =>
      change a with (amap (fun e => fdiv e (fsqrt (of_int (headDim_ self))))
                       (moddims (transpose (Linear_forward (wq_ self) x))
                          (Dim4 (-1) (headDim_ self) (nHeads_ self * B) 1)))
  end.
  rewrite at4_amap
    by first [ exact HwQ
             | rewrite HdQ; apply inb_true; cbn [d0 d1 d2 d3]; lia ].
  rewrite (at4_heads (wq_ self) x _ _ C T B i c s Hx Hhd HnH HB Hq Hi Hc Hs).
  rewrite (at4_heads (wk_ self) x _ _ C T B j c s Hx Hhd HnH HB Hk Hj Hc Hs).
  reflexivity.
Qed.

(** C5.  In [selfAttention] the three projections are reshaped to one slice
    per head and batch element and the query is divided by the square root of
    the head dimension.  The scores form a T x T x (nHeads * B) tensor whose
    element (i, j, s) is the product of the scaled query of position [i] with
    the key of position [j] over the features of head [s mod nHeads] of batch
    element [s / nHeads]: axis 0 is the query position and axis 1 the key
    position.  The attention weights are the softmax of the scores along axis
    1, the key axis: weight (i, j, s) is the exponential of score (i, j, s)
    over the sum of the exponentials of the scores of query [i] against every
    key, so that for every query position and every slice the weights add up
    to one over the key positions.  The weights enter the product with the
    values as they are; the only dropout of [selfAttention] follows the
    output projection. *)
Theorem attention_weights_sum_to_one (self : VisionTransformer R)
    (x : array R) C T B :
  dims x = Dim4 C T B 1 ->
  0 < headDim_ self -> 0 < nHeads_ self -> 0 < B -> 0 <= T ->
  d0 (dims (weight (wq_ self))) = headDim_ self * nHeads_ self ->
  d0 (dims (weight (wk_ self))) = headDim_ self * nHeads_ self ->
  let hd := headDim_ self in
  let nH := nHeads_ self in
  let heads m := moddims (transpose (Linear_forward m x))
                         (Dim4 (-1) hd (nH * B) 1) in
  let scores := selfAttention_scores self x in
  let attn := selfAttention_attn self x in
  selfAttention_qkv self x
  = (amap (fun e => (e / R_sqrt.sqrt (IZR hd))%R) (heads (wq_ self)),
     heads (wk_ self), heads (wv_ self)) /\
  dims scores = Dim4 T T (nH * B) 1 /\
  (forall i j s, 0 <= i < T -> 0 <= j < T -> 0 <= s < nH * B ->
     at4 scores i j s 0
     = fsum hd
         (fun c =>
            (at4 (Linear_forward (wq_ self) x) (c + hd * (s mod nH)) i (s / nH) 0
             / R_sqrt.sqrt (IZR hd)
             * at4 (Linear_forward (wk_ self) x) (c + hd * (s mod nH)) j (s / nH) 0)%R)) /\
  attn = softmax1 scores /\
  dims attn = Dim4 T T (nH * B) 1 /\
  (forall i j s, 0 <= i < T -> 0 <= j < T -> 0 <= s < nH * B ->
     at4 attn i j s 0
     = (Rtrigo_def.exp (at4 scores i j s 0)
        / fsum T (fun j' => Rtrigo_def.exp (at4 scores i j' s 0)))%R) /\
  (forall i s, 0 <= i < T -> 0 <= s < nH * B ->
     fsum T (fun j => at4 attn i j s 0) = 1%R) /\
  (forall g,
     selfAttention self x g
     = dropout
         (Linear_forward (wf_ self)
            (transpose
               (moddims (matmul attn (heads (wv_ self)))
                        (Dim4 (-1) (mul32 hd nH) B 1))))
         (if train_ self then pDropout_ self else flit 0) g).
Proof.
  intros Hx Hhd HnH HB HT Hq Hk. cbv zeta.
  pose proof (dims_scores self x C T B Hx Hhd HnH HB HT Hq Hk) as Hdims.
  assert (Hqkv : selfAttention_qkv self x
                 = (amap (fun e => (e / R_sqrt.sqrt (IZR (headDim_ self)))%R)
                         (moddims (transpose (Linear_forward (wq_ self) x))
                            (Dim4 (-1) (headDim_ self) (nHeads_ self * B) 1)),
                    moddims (transpose (Linear_forward (wk_ self) x))
                      (Dim4 (-1) (headDim_ self) (nHeads_ self * B) 1),
                    moddims (transpose (Linear_forward (wv_ self) x))
                      (Dim4 (-1) (headDim_ self) (nHeads_ self * B) 1)))
    by (unfold selfAttention_qkv; rewrite Hx; reflexivity).
  split; [ exact Hqkv | ].
  split; [ exact Hdims | ].
  split.
  { intros i j s Hi Hj Hs.
    pose proof (scores_elements self x C T B i j s Hx Hhd HnH HB Hq Hk Hi Hj Hs)
      as Hscore.
    cbn [fmul fdiv fsqrt of_int R_Arith R_Elementary] in Hscore.
    exact Hscore. }
  split; [ reflexivity | ].
  split; [ exact Hdims | ].
  split.
  { intros i j s Hi Hj Hs. unfold selfAttention_attn, softmax1.
    rewrite at4_tabulate
      by (rewrite Hdims; apply inb_true; cbn [d0 d1 d2 d3]; lia).
    rewrite Hdims. reflexivity. }
  split.
  { intros i s Hi Hs. unfold selfAttention_attn.
    pose proof (softmax1_row_sum (selfAttention_scores self x) i s 0) as Hsum.
    rewrite Hdims in Hsum. cbn [d1] in Hsum. apply Hsum.
    apply inb_true. cbn [d0 d1 d2 d3]. lia. }
  intros g. unfold selfAttention. rewrite Hqkv, Hx. cbn [d2].
  destruct (dropout _ _ g) as [result g']. reflexivity.
Qed.

Lemma attention_weights_sum_to_one_witness :
  dims (selfAttention_attn (unitBlock true) unitInput) = Dim4 2 2 1 1 /\
  at4 (selfAttention_scores (unitBlock true) unitInput) 1 0 0 0
  = fsum 1
      (fun c =>
         (at4 (Linear_forward (wq_ (unitBlock true)) unitInput)
              (c + 1 * (0 mod 1)) 1 (0 / 1) 0
          / R_sqrt.sqrt (IZR 1)
          * at4 (Linear_forward (wk_ (unitBlock true)) unitInput)
                (c + 1 * (0 mod 1)) 0 (0 / 1) 0)%R) /\
  fsum 2 (fun j => at4 (selfAttention_attn (unitBlock true) unitInput) 1 j 0 0)
  = 1%R.
Proof.
  destruct (attention_weights_sum_to_one (unitBlock true) unitInput 1 2 1)
    as (_ & _ & Hscores & _ & Hdims & _ & Hsum & _);
    [ reflexivity | cbn; lia | cbn; lia | lia | lia | reflexivity | reflexivity | ].
  split; [ exact Hdims | ].
  split; [ apply (Hscores 1 0 0); cbn; lia | ].
  apply (Hsum 1 0); cbn; lia.
Defined.

(** X7.  In training mode [dropPath] takes one draw for each batch element
    and multiplies the whole slice of batch element [k] by one factor, the
    same for every channel and position: its keep decision (one when its draw
    exceeds the drop-path probability, zero otherwise) divided by the realised
    keep ratio, the mean of the keep decisions of the batch.  The shape is
    kept. *)
Theorem dropPath_scales_batch_elements {F} `{Arith F}
    (self : VisionTransformer F) (x : array F) (g : Rng F) C T B :
  train_ self = true -> dims x = Dim4 C T B 1 -> wellFormed x ->
  0 < C < 2 ^ 31 -> 0 < T < 2 ^ 31 -> 0 < B < 2 ^ 31 ->
  let keep k := if fgtb (tape g (cursor g + k)) (pLayerdrop_ self)
                then f1 else f0 in
  let ratio := fdiv (fsum B keep) (of_int B) in
  dropPath_keepRatio self x g = ratio /\
  snd (dropPath self x g) = MkRng (tape g) (cursor g + B) /\
  dims (fst (dropPath self x g)) = dims x /\
  wellFormed (fst (dropPath self x g)) /\
  forall i j k, 0 <= i < C -> 0 <= j < T -> 0 <= k < B ->
    at4 (fst (dropPath self x g)) i j k 0
    = fmul (at4 x i j k 0) (fdiv (keep k) ratio).
Proof.
  intros Htrain Hx Hwf HC HT HB. cbv zeta.
  assert (Hd2 : d2 (dims x) = B) by (rewrite Hx; reflexivity).
  destruct (dropPath_elements self x g C T B Htrain Hx Hwf HC HT HB)
    as (Hrng & Hdims & Hwfout & Helems).
  rewrite <- (keepRatio_eq self x g B Hd2 HB).
  repeat split; assumption.
Qed.

Lemma dropPath_scales_batch_elements_witness :
  cursor (snd (dropPath dropBlock dropInput zeroDraws)) = 3 /\
  at4 (fst (dropPath dropBlock dropInput
              (MkRng (fun n => if n =? 1 then flit 0 else flit 1) 0))) 1 0 2 0
  = 9%float.
Proof.
  split.
  - destruct (dropPath_scales_batch_elements dropBlock dropInput zeroDraws 2 1 3)
      as (_ & Hrng & _); [ reflexivity | reflexivity | reflexivity | lia.. | ].
    rewrite Hrng. reflexivity.
  - destruct (dropPath_scales_batch_elements dropBlock dropInput
                (MkRng (fun n => if n =? 1 then flit 0 else flit 1) 0) 2 1 3)
      as (_ & _ & _ & _ & Helems);
      [ reflexivity | reflexivity | reflexivity | lia.. | ].
    rewrite (Helems 1 0 2) by lia. vm_compute. reflexivity.
Defined.

(** ** Drop-path in exact arithmetic *)

Lemma R_f1 : (f1 : R) = 1%R.
Proof. unfold f1. cbn [flit R_Arith]. rewrite Q2R_lit. lra. Qed.

Lemma R_fsum_ones n : 0 <= n -> fsum n (fun _ => 1%R) = IZR n.
Proof.
  intros Hn. unfold fsum. rewrite R_f0.
  assert (Hfold : forall (l : list Z) (a : R),
            fold_left (fun acc _ => fadd acc 1%R) l a
            = (a + INR (length l))%R).
  { induction l as [|c l IH]; intros a; cbn [fold_left length].
    - cbn. lra.
    - rewrite IH, S_INR. cbn [fadd R_Arith]. lra. }
  rewrite Hfold, length_seqZ, INR_IZR_INZ, Z2Nat.id by lia. lra.
Qed.

Lemma offset_coords d n :
  0 < d0 d -> 0 < d1 d -> 0 < d2 d -> 0 < d3 d -> 0 <= n < elements d ->
  let '(i, j, k, l) := coords d n in offset d i j k l = n.
Proof.
  intros H0 H1 H2 H3 Hn. unfold coords, offset.
  rewrite <- (Z.div_div n (d0 d * d1 d) (d2 d)) by nia.
  rewrite <- !(Z.div_div n (d0 d) (d1 d)) by lia.
  pose proof (Z.div_mod n (d0 d) ltac:(lia)) as E0.
  pose proof (Z.div_mod (n / d0 d) (d1 d) ltac:(lia)) as E1.
  pose proof (Z.div_mod (n / d0 d / d1 d) (d2 d) ltac:(lia)) as E2.
  set (q0 := n / d0 d) in *. set (m0 := n mod d0 d) in *.
  set (q1 := q0 / d1 d) in *. set (m1 := q0 mod d1 d) in *.
  set (q2 := q1 / d2 d) in *. set (m2 := q1 mod d2 d) in *.
  clearbody q0 m0 q1 m1 q2 m2. subst n q0 q1. ring.
Qed.

(** Two well-formed arrays of one shape with the same elements are equal. *)
Lemma array_ext {F} `{Arith F} (a b : array F) :
  dims a = dims b -> wellFormed a -> wellFormed b ->
  0 < d0 (dims a) -> 0 < d1 (dims a) -> 0 < d2 (dims a) -> 0 < d3 (dims a) ->
  (forall i j k l, inb (dims a) i j k l = true ->
                   at4 a i j k l = at4 b i j k l) ->
  a = b.
Proof.
  destruct a as [d la], b as [db lb]. unfold wellFormed. cbn [dims host].
  intros <- Hla Hlb H0 H1 H2 H3 Hext. f_equal.
  apply list_eq. intros n.
  destruct (decide (n < length la)%nat) as [Hlt | Hge].
  - pose proof (coords_inb d (Z.of_nat n) H0 H1 H2 H3 ltac:(lia)) as Hin.
    pose proof (offset_coords d (Z.of_nat n) H0 H1 H2 H3 ltac:(lia)) as Hoff.
    destruct (coords d (Z.of_nat n)) as [[[i j] k] l].
    specialize (Hext i j k l Hin). unfold at4 in Hext.
    cbn [dims host] in Hext. rewrite Hin, Hoff, Nat2Z.id in Hext.
    destruct (la !! n) as [x|] eqn:Ha; [ | apply lookup_ge_None in Ha; lia ].
    destruct (lb !! n) as [y|] eqn:Hb; [ | apply lookup_ge_None in Hb; lia ].
    cbn in Hext. congruence.
  - rewrite (proj2 (lookup_ge_None la n)) by lia.
    rewrite (proj2 (lookup_ge_None lb n)) by lia. reflexivity.
Qed.

Lemma dropPath_all_kept (self : VisionTransformer R)
    (x : array R) (g : Rng R) C T B :
  train_ self = true -> dims x = Dim4 C T B 1 -> wellFormed x ->
  0 < C < 2 ^ 31 -> 0 < T < 2 ^ 31 -> 0 < B < 2 ^ 31 ->
  (forall k, 0 <= k < B ->
             fgtb (tape g (cursor g + k)) (pLayerdrop_ self) = true) ->
  dropPath_keepRatio self x g = 1%R /\ fst (dropPath self x g) = x.
Proof.
  intros Htrain Hx Hwf HC HT HB Hkept.
  assert (Hd2 : d2 (dims x) = B) by (rewrite Hx; reflexivity).
  assert (Hratio : dropPath_keepRatio self x g = 1%R).
  { rewrite (keepRatio_eq self x g B Hd2 HB).
    rewrite (fsum_ext _ _ (fun _ => 1%R)).
    - rewrite R_fsum_ones by lia. cbn [fdiv of_int R_Arith].
      apply Rdiv_diag. apply not_0_IZR. lia.
    - intros k Hk. rewrite (Hkept k Hk). apply R_f1. }
  split; [ exact Hratio | ].
  destruct (dropPath_elements self x g C T B Htrain Hx Hwf HC HT HB)
    as (_ & Hdims & Hwfout & Helems).
  apply array_ext; try assumption;
    try (rewrite Hdims, Hx; cbn [d0 d1 d2 d3]; lia).
  intros i j k l Hin. rewrite Hdims, Hx in Hin. apply inb_true in Hin.
  cbn [d0 d1 d2 d3] in Hin. assert (l = 0) as -> by lia.
  rewrite Helems by lia. rewrite Hratio, (Hkept k) by lia. rewrite R_f1.
  cbn [fmul fdiv R_Arith]. field.
Qed.

(** X8.  In exact arithmetic, when every batch element is kept the realised
    keep ratio is one and [dropPath] returns its argument. *)
Theorem dropPath_all_kept_is_identity (self : VisionTransformer R)
    (x : array R) (g : Rng R) C T B :
  train_ self = true -> dims x = Dim4 C T B 1 -> wellFormed x ->
  0 < C < 2 ^ 31 -> 0 < T < 2 ^ 31 -> 0 < B < 2 ^ 31 ->
  (forall k, 0 <= k < B ->
             fgtb (tape g (cursor g + k)) (pLayerdrop_ self) = true) ->
  dropPath_keepRatio self x g = 1%R /\ fst (dropPath self x g) = x.
Proof. apply dropPath_all_kept. Qed.

Lemma dropPath_all_kept_is_identity_witness :
  fst (dropPath (unitBlock true) unitInput (MkRng (fun _ => 1%R) 0))
  = unitInput.
Proof.
  apply (dropPath_all_kept_is_identity (unitBlock true) unitInput
           (MkRng (fun _ => 1%R) 0) 1 2 1); try reflexivity; try lia.
  intros k Hk. cbn. unfold R_gtb, Q2R. cbn.
  destruct (Rlt_dec (1 * / 10) 1) as [Hlt | Hnlt]; [ reflexivity | lra ].
Defined.

(** ** Shapes through the forward pass *)

Section ShapeFacts.
Context {F : Type} `{Elementary F}.

Lemma dropout_shape (a : array F) p g :
  dims (fst (dropout a p g)) = dims a /\
  (wellFormed a -> wellFormed (fst (dropout a p g))).
Proof.
  unfold dropout. destruct (fgtb p f0).
  - change (let '(u, g') := randu (dims a) g in
            (azip fmul (amap (fmul (fdiv f1 (fsub f1 p))) (gtMask u p)) a, g'))
      with (azip fmul (amap (fmul (fdiv f1 (fsub f1 p)))
                            (gtMask (fst (randu (dims a) g)) p)) a,
            snd (randu (dims a) g)).
    cbn [fst]. split; [ reflexivity | ].
    intros Hwf. apply wellFormed_azip.
    + reflexivity.
    + unfold gtMask. do 2 apply wellFormed_amap. apply wellFormed_randu.
    + exact Hwf.
  - cbn [fst]. split; [ reflexivity | auto ].
Qed.


Lemma dims_attn (self : VisionTransformer F) (x : array F) C T B :
  dims x = Dim4 C T B 1 ->
  0 < headDim_ self -> 0 < nHeads_ self -> 0 < B -> 0 <= T ->
  d0 (dims (weight (wq_ self))) = headDim_ self * nHeads_ self ->
  d0 (dims (weight (wk_ self))) = headDim_ self * nHeads_ self ->
  dims (selfAttention_attn self x) = Dim4 T T (nHeads_ self * B) 1.
Proof.
  intros Hx Hhd HnH HB HT Hq Hk.
  unfold selfAttention_attn, softmax1, selfAttention_scores,
    selfAttention_qkv, matmulNT, amap.
  cbn [dims tabulate host]. rewrite Hx. cbn [d2].
  rewrite (dims_heads (wq_ self) x _ _ C T B Hx Hhd HnH HB HT Hq).
  rewrite (dims_heads (wk_ self) x _ _ C T B Hx Hhd HnH HB HT Hk).
  reflexivity.
Qed.

Lemma selfAttention_shape (self : VisionTransformer F) (x : array F) g C T B :
  dims x = Dim4 C T B 1 ->
  0 < headDim_ self -> 0 < nHeads_ self -> 0 < B -> 0 <= T ->
  headDim_ self * nHeads_ self < 2 ^ 31 ->
  d0 (dims (weight (wq_ self))) = headDim_ self * nHeads_ self ->
  d0 (dims (weight (wk_ self))) = headDim_ self * nHeads_ self ->
  d0 (dims (weight (wv_ self))) = headDim_ self * nHeads_ self ->
  dims (fst (selfAttention self x g))
  = Dim4 (d0 (dims (weight (wf_ self)))) T B 1 /\
  wellFormed (fst (selfAttention self x g)).
Proof.
  intros Hx Hhd HnH HB HT Hsmall Hq Hk Hv.
  pose proof (dims_attn self x C T B Hx Hhd HnH HB HT Hq Hk) as Hattn.
  unfold selfAttention. rewrite Hx. cbn [d2].
  pose proof (dims_heads (wv_ self) x _ _ C T B Hx Hhd HnH HB HT Hv) as Hvd.
  unfold selfAttention_qkv. rewrite Hx. cbn [d2].
  set (v := moddims (transpose (Linear_forward (wv_ self) x))
                    (Dim4 (-1) (headDim_ self) (nHeads_ self * B) 1)) in *.
  set (attn := selfAttention_attn self x) in *.
  set (projected := Linear_forward (wf_ self) _).
  assert (Hpd : dims projected = Dim4 (d0 (dims (weight (wf_ self)))) T B 1).
  { unfold projected, Linear_forward, transpose, moddims, matmul.
    cbn [tabulate dims d0 d1 d2 d3]. rewrite Hvd, Hattn. cbn [d0 d1 d2 d3].
    unfold mul32. rewrite wrap32_small by nia.
    rewrite (inferDim_keep _ B) by lia.
    rewrite (inferDim_keep _ 1) by lia.
    unfold elements. cbn [d0 d1 d2 d3].
    replace (T * headDim_ self * (nHeads_ self * B) * 1)
      with (T * (headDim_ self * nHeads_ self * B * 1)) by ring.
    rewrite inferDim_fit by nia. reflexivity. }
  assert (Hpwf : wellFormed projected)
    by (unfold projected, Linear_forward; apply wellFormed_tabulate).
  destruct (dropout_shape projected
              (if train_ self then pDropout_ self else flit 0) g)
    as [Hdd Hdwf].
  destruct (dropout projected _ g) as [result g'].
  cbn [fst] in *. rewrite Hdd, Hpd. split; [ reflexivity | auto ].
Qed.

Lemma mlp_shape (self : VisionTransformer F) (x : array F) g :
  dims (fst (mlp self x g))
  = Dim4 (d0 (dims (weight (w2_ self)))) (d1 (dims x)) (d2 (dims x))
         (d3 (dims x)) /\
  wellFormed (fst (mlp self x g)).
Proof.
  unfold mlp.
  set (p := if train_ self then pDropout_ self else flit 0).
  set (hidden := gelu (Linear_forward (w1_ self) x)).
  destruct (dropout_shape hidden p g) as [Hd1 _].
  destruct (dropout hidden p g) as [h g1]. cbn [fst] in Hd1.
  set (projected := Linear_forward (w2_ self) h).
  assert (Hpd : dims projected
                = Dim4 (d0 (dims (weight (w2_ self)))) (d1 (dims x))
                       (d2 (dims x)) (d3 (dims x))).
  { unfold projected, Linear_forward. cbn [tabulate dims]. rewrite Hd1.
    reflexivity. }
  assert (Hpwf : wellFormed projected)
    by (unfold projected, Linear_forward; apply wellFormed_tabulate).
  destruct (dropout_shape projected p g1) as [Hd2 Hwf2].
  destruct (dropout projected p g1) as [result g2].
  cbn [fst] in *. rewrite Hd2, Hpd. split; [ reflexivity | auto ].
Qed.

Lemma LayerNorm_shape (m : LayerNorm F) (x : array F) :
  dims (LayerNorm_forward m x) = dims x /\ wellFormed (LayerNorm_forward m x).
Proof.
  unfold LayerNorm_forward. split; [ reflexivity | apply wellFormed_tabulate ].
Qed.



End ShapeFacts.


(** ** A loaded block in the forward pass *)

Lemma loaded_block_shapes {F} `{Arith F} fs prefix out
    (blk : VisionTransformer F) out' :
  VisionTransformer_load (F:=F) fs prefix out = (inr blk, out') ->
  train_ blk = true /\ pDropout_ blk = flit 0 /\ pLayerdrop_ blk = flit 0 /\
  0 < headDim_ blk /\ 0 < nHeads_ blk /\
  headDim_ blk * nHeads_ blk < 2 ^ 31 /\
  d0 (dims (weight (wq_ blk))) = headDim_ blk * nHeads_ blk /\
  d0 (dims (weight (wk_ blk))) = headDim_ blk * nHeads_ blk /\
  d0 (dims (weight (wv_ blk))) = headDim_ blk * nHeads_ blk /\
  d0 (dims (weight (wf_ blk))) = 768 /\
  d0 (dims (weight (w2_ blk))) = 768.
Proof.
  intros Hload.
  destruct (load_inv _ _ _ _ _ Hload) as (_ & Htrain & Hp & Hl & Hq & Hk & Hv).
  destruct (load_inv_rest _ _ _ _ _ Hload)
    as ((_ & Hh & _ & Hn) & _ & _ & H2 & Hf & _).
  cbv zeta in Hq, Hk, Hv.
  rewrite Hq, Hk, Hv, Hf, H2, Hh, Hn.
  repeat split; try assumption; try lia; reflexivity.
Qed.



Lemma R_gtb_zero (u : R) : (0 < u)%R -> fgtb u (flit 0 : R) = true.
Proof.
  intros Hu. cbn [fgtb flit R_Arith]. rewrite Q2R_lit. unfold R_gtb.
  destruct (Rlt_dec (0 / 1) u) as [Hlt | Hnlt]; [ reflexivity | lra ].
Qed.

(** X14.  In exact arithmetic a loaded block computes in training mode what it
    computes in evaluation mode, as long as none of the 2 * B draws of the
    two [dropPath] calls is zero: its drop-path probability is zero, so every
    batch element whose draw is positive is kept. *)
Theorem loaded_training_equals_evaluation (fs : gmap string (list byte))
    (prefix : string) (out : list string) (blk : VisionTransformer R)
    (out' : list string) (x : array R) (g : Rng R) T B :
  VisionTransformer_load (F:=R) fs prefix out = (inr blk, out') ->
  dims x = Dim4 768 T B 1 -> wellFormed x ->
  0 < T < 2 ^ 31 -> 0 < B < 2 ^ 31 ->
  (forall k, 0 <= k < 2 * B -> (0 < tape g (cursor g + k))%R) ->
  fst (forward blk [x] g) = fst (forward (setTrain false blk) [x] g).
Proof.
  intros Hload Hx Hwf HT HB Hdraws.
  destruct (loaded_block_shapes fs prefix out blk out' Hload)
    as (Htrain & Hp & Hl & Hhd & HnH & Hsmall & Hq & Hk & Hv & Hf & H2).
  pose proof (R_gtb_irrefl (flit 0)) as Hirr.
  assert (Hp' : (if train_ blk then pDropout_ blk else flit 0) = flit 0)
    by (rewrite Htrain; exact Hp).
  assert (HC : 0 < 768 < 2 ^ 31) by lia.
  (* training mode *)
  destruct (LayerNorm_shape (norm1_ blk) x) as [Hn1 _]. rewrite Hx in Hn1.
  destruct (selfAttention_shape blk (LayerNorm_forward (norm1_ blk) x) g
              768 T B Hn1 Hhd HnH ltac:(lia) ltac:(lia) Hsmall Hq Hk Hv)
    as [Had Hawf].
  rewrite Hf in Had.
  pose proof (selfAttention_no_dropout blk (LayerNorm_forward (norm1_ blk) x)
                g Hirr Hp') as Hsa.
  rewrite Hsa in Had, Hawf. cbn [fst] in Had, Hawf.
  match type of Hsa with _ = (?v, _) => set (a := v) in * end.
  assert (Hkept1 : forall k, 0 <= k < B ->
            fgtb (tape g (cursor g + k)) (pLayerdrop_ blk) = true).
  { intros k Hk1. rewrite Hl. apply R_gtb_zero. apply Hdraws. lia. }
  destruct (dropPath_all_kept blk a g 768 T B Htrain Had Hawf HC HT HB Hkept1)
    as [_ Hid1].
  destruct (dropPath_elements blk a g 768 T B Htrain Had Hawf HC HT HB)
    as (Hg1 & _).
  destruct (dropPath blk a g) as [a' g1] eqn:Hdp1. cbn [fst snd] in Hid1, Hg1.
  subst a'.
  set (output := azip fadd x a) in *.
  assert (Hod : dims output = Dim4 768 T B 1) by exact Hx.
  destruct (LayerNorm_shape (norm2_ blk) output) as [Hn2 _].
  destruct (mlp_shape blk (LayerNorm_forward (norm2_ blk) output) g1)
    as [Hmd Hmwf].
  rewrite Hn2, Hod, H2 in Hmd. cbn [d1 d2 d3] in Hmd.
  pose proof (mlp_no_dropout blk (LayerNorm_forward (norm2_ blk) output)
                g1 Hirr Hp') as Hmlp.
  rewrite Hmlp in Hmd, Hmwf. cbn [fst] in Hmd, Hmwf.
  match type of Hmlp with _ = (?v, _) => set (m := v) in * end.
  assert (Hkept2 : forall k, 0 <= k < B ->
            fgtb (tape g1 (cursor g1 + k)) (pLayerdrop_ blk) = true).
  { intros k Hk2. rewrite Hl, Hg1. cbn [tape cursor]. apply R_gtb_zero.
    rewrite <- Z.add_assoc. apply Hdraws. lia. }
  destruct (dropPath_all_kept blk m g1 768 T B Htrain Hmd Hmwf HC HT HB Hkept2)
    as [_ Hid2].
  destruct (dropPath blk m g1) as [m' g2] eqn:Hdp2. cbn [fst] in Hid2.
  subst m'.
  rewrite (forward_one blk x g a g a g1 m g1 m g2 Hsa Hdp1 Hmlp Hdp2).
  (* evaluation mode *)
  pose proof (selfAttention_no_dropout (setTrain false blk)
                (LayerNorm_forward (norm1_ (setTrain false blk)) x) g Hirr
                eq_refl) as Hsa'.
  pose proof (mlp_no_dropout (setTrain false blk)
                (LayerNorm_forward (norm2_ (setTrain false blk)) output) g Hirr
                eq_refl) as Hmlp'.
  rewrite (forward_one (setTrain false blk) x g a g a g m g m g Hsa'
             (dropPath_eval (setTrain false blk) a g eq_refl)
             Hmlp'
             (dropPath_eval (setTrain false blk) m g eq_refl)).
  reflexivity.
Qed.

Lemma loaded_training_equals_evaluation_witness :
  exists blk out',
    VisionTransformer_load (F:=R) fs0 "ckpt" [] = (inr blk, out') /\
    fst (forward blk [zeroInput768] (MkRng (fun _ => 1%R) 0))
    = fst (forward (setTrain false blk) [zeroInput768]
             (MkRng (fun _ => 1%R) 0)).
Proof.
  destruct (load_fs0 (F:=R)) as (blk & out' & Hload).
  exists blk, out'. split; [ exact Hload | ].
  apply (loaded_training_equals_evaluation fs0 "ckpt" [] blk out'
           zeroInput768 (MkRng (fun _ => 1%R) 0) 1 1 Hload);
    [ reflexivity
    | unfold wellFormed; cbn [host dims zeroInput768];
      rewrite length_replicate; reflexivity
    | lia | lia | intros k Hk; cbn [tape]; lra ].
Defined.

(** X15.  Where the elements of a loaded block come from: each file fills its
    tensor in column-major order, so that element (i, c) of a weight with
    [n] rows is float number [i + n * c] of its file, and element [i] of a
    bias, a scale or a shift is float number [i] of its file. *)
Theorem load_elements {F} `{Arith F} (fs : gmap string (list byte))
    (prefix : string) (out : list string) (blk : VisionTransformer F)
    (out' : list string) :
  VisionTransformer_load (F:=F) fs prefix out = (inr blk, out') ->
  let file suffix n := default f0 (floatsOf (F:=F) fs (prefix +:+ suffix)
                                     !! Z.to_nat n) in
  (forall i c, 0 <= i < 3072 -> 0 <= c < 768 ->
     at4 (weight (w1_ blk)) i c 0 0 = file ".mlp.fc1.weight.bin" (i + 3072 * c)) /\
  (forall i c, 0 <= i < 768 -> 0 <= c < 3072 ->
     at4 (weight (w2_ blk)) i c 0 0 = file ".mlp.fc2.weight.bin" (i + 768 * c)) /\
  (forall i c, 0 <= i < 768 -> 0 <= c < 768 ->
     at4 (weight (wf_ blk)) i c 0 0 = file ".attn.proj.weight.bin" (i + 768 * c)) /\
  (forall i, 0 <= i < 3072 ->
     at4 (bias (w1_ blk)) i 0 0 0 = file ".mlp.fc1.bias.bin" i) /\
  (forall i, 0 <= i < 768 ->
     at4 (bias (w2_ blk)) i 0 0 0 = file ".mlp.fc2.bias.bin" i /\
     at4 (bias (wf_ blk)) i 0 0 0 = file ".attn.proj.bias.bin" i /\
     at4 (ln_weight (norm1_ blk)) i 0 0 0 = file ".norm1.weight.bin" i /\
     at4 (ln_bias (norm1_ blk)) i 0 0 0 = file ".norm1.bias.bin" i /\
     at4 (ln_weight (norm2_ blk)) i 0 0 0 = file ".norm2.weight.bin" i /\
     at4 (ln_bias (norm2_ blk)) i 0 0 0 = file ".norm2.bias.bin" i).
Proof.
  intros Hload. cbv zeta.
  destruct (load_inv_rest _ _ _ _ _ Hload)
    as (_ & _ & H1 & H2 & Hf & Hn1 & Hn2).
  rewrite H1, H2, Hf, Hn1, Hn2. cbn [weight bias ln_weight ln_bias].
  split; [ | split; [ | split; [ | split ] ] ].
  - intros i c Hi Hc. apply at4_array2; lia.
  - intros i c Hi Hc. apply at4_array2; lia.
  - intros i c Hi Hc. apply at4_array2; lia.
  - intros i Hi. apply at4_array1; lia.
  - intros i Hi. repeat split; apply at4_array1; lia.
Qed.

Lemma load_elements_witness :
  exists blk out',
    VisionTransformer_load (F:=float) fs0 "ckpt" [] = (inr blk, out') /\
    at4 (weight (w1_ blk)) 5 7 0 0
    = default f0 (floatsOf (F:=float) fs0 "ckpt.mlp.fc1.weight.bin"
                    !! Z.to_nat (5 + 3072 * 7)).
Proof.
  destruct (load_fs0 (F:=float)) as (blk & out' & Hload).
  exists blk, out'. split; [ exact Hload | ].
  pose proof (load_elements fs0 "ckpt" [] blk out' Hload) as Helems.
  cbv zeta in Helems. destruct Helems as (Hw1 & _).
  apply (Hw1 5 7); lia.
Defined.
